(** * Operation lifecycle engine of the multi-account EKS capacity scheduler

    A shallow embedding of the Python sources under [app/]: the status
    derivation and idempotency lock of [state/state_manager.py], the baseline
    store of [state/cluster_baseline.py], the production guard of
    [discovery.py], the ASG resolution of [operations/eks_controller.py], the
    fan-out router of [operations/operation_router.py], the SQS worker of
    [operations/task_worker.py] and the trigger check of
    [schedules/cron_utils.py].

    Python strings are [string], integers are [Z], dictionaries used as maps
    are [gmap], dictionaries whose iteration order is observed are association
    lists, and code that talks to AWS threads an explicit world through a
    small state-and-exception monad. *)

From stdpp Require Import gmap strings list fin_maps.
From Stdlib Require Import ZArith Ascii.

Local Open Scope string_scope.
Local Open Scope Z_scope.

(** ** Python values used by the sources *)

Module Py.

(** [str.lower()] on the ASCII range; the four words the sources compare
    against are ASCII and no other character lowers into them. *)
Definition lower_ascii (c : ascii) : ascii :=
  let n := nat_of_ascii c in
  if ((65 <=? n) && (n <=? 90))%nat then ascii_of_nat (n + 32) else c.

Fixpoint lower (s : string) : string :=
  match s with
  | String.EmptyString => String.EmptyString
  | String.String c s' => String.String (lower_ascii c) (lower s')
  end.

(** [needle in hay] on strings. *)
Fixpoint contains (needle hay : string) : bool :=
  String.prefix needle hay
  || match hay with
     | String.EmptyString => false
     | String.String _ hay' => contains needle hay'
     end.

(** [s.split(sep)] for a one-character separator. *)
Fixpoint split (sep : ascii) (s : string) : list string :=
  match s with
  | String.EmptyString => [""]
  | String.String c s' =>
      if Ascii.eqb c sep then "" :: split sep s'
      else match split sep s' with
           | [] => [String.String c ""]
           | h :: t => String.String c h :: t
           end
  end.

(** [sep.join(parts)]. *)
Definition join (sep : string) (parts : list string) : string :=
  String.concat sep parts.

(** [s.strip()]: ASCII white space is 9..13, 28..31 and 32. *)
Definition is_space (c : ascii) : bool :=
  let n := nat_of_ascii c in
  (((9 <=? n) && (n <=? 13)) || ((28 <=? n) && (n <=? 32)))%nat.

Fixpoint lstrip (s : string) : string :=
  match s with
  | String.EmptyString => String.EmptyString
  | String.String c s' => if is_space c then lstrip s' else s
  end.

Definition rev_string (s : string) : string :=
  String.string_of_list_ascii (rev (String.list_ascii_of_string s)).

Definition strip (s : string) : string :=
  rev_string (lstrip (rev_string (lstrip s))).

(** [[x.strip() for x in s.split(",") if x.strip()]], the shape of both
    [parsed_target_regions] and [parsed_target_account_ids]. *)
Definition csv (s : string) : list string :=
  filter (λ x, x ≠ "") (strip <$> split "," s).

(** A dictionary whose iteration order is observed: keys are unique and kept
    in insertion order. [dict_get] is [d.get(k)]. *)
Definition dict := list (string * string).

Fixpoint dict_get (d : dict) (k : string) : option string :=
  match d with
  | [] => None
  | (k', v) :: d' => if String.eqb k' k then Some v else dict_get d' k
  end.

Definition dict_keys (d : dict) : list string := fst <$> d.

(** [{t["Key"]: t["Value"] for t in tags}]: a later entry overwrites an
    earlier one with the same key. *)
Definition dict_of_pairs (tags : list (string * string)) : gmap string string :=
  foldl (λ m kv, <[kv.1 := kv.2]> m) ∅ tags.

End Py.

(** ** Exceptions, the AWS world and the monad that threads it *)

Module Aws.

(** The exception classes the sources raise, catch or let through. *)
Inductive exn :=
  | ClientError (code operation message : string)
      (* botocore.exceptions.ClientError *)
  | RuntimeError (message : string)
  | RetryError (last : exn)
      (* tenacity.RetryError, raised when the attempts are used up *)
  | OtherError (class message : string).
      (* any other subclass of Exception, e.g. json.JSONDecodeError *)

(** [str(e)]. botocore renders a client error from its code, operation and
    message; the rendering of a RetryError (which shows a future's address)
    is kept abstract as a wrapper of the last error. *)
Fixpoint str (e : exn) : string :=
  match e with
  | ClientError code operation message =>
      "An error occurred (" ++ code ++ ") when calling the " ++ operation
      ++ " operation: " ++ message
  | RuntimeError message => message
  | RetryError last => "RetryError[" ++ str last ++ "]"
  | OtherError _ message => message
  end.

Definition is_client_error (e : exn) : bool :=
  match e with ClientError _ _ _ => true | _ => false end.

Definition error_code (e : exn) : string :=
  match e with ClientError code _ _ => code | _ => "" end.

(** *** Service-side data *)

(** What [describe_cluster] returns for one EKS cluster. *)
Record EksCluster := {
  ec_name : string;
  ec_arn : string;
  ec_status : string;
  ec_version : option string;
  ec_tags : option Py.dict
}.

Record MixedInstancesPolicy := {
  Overrides : list (option string);
  OnDemandPercentageAboveBaseCapacity : option Z
}.

(** One entry of [describe_auto_scaling_groups]. *)
Record ASG := {
  AutoScalingGroupName : string;
  AutoScalingGroupARN : string;
  DesiredCapacity : Z;
  MinSize : Z;
  MaxSize : Z;
  Tags : list (string * string);
  MixedInstancesPolicy_ : option MixedInstancesPolicy;
  LaunchTemplate : bool;
  LaunchConfigurationName : option string;
  Instances : nat
}.

(** A DynamoDB attribute value and an item of the operations table. *)
Inductive attr := AS (s : string) | AN (n : Z).

#[export] Instance attr_eq_dec : EqDecision attr.
Proof. solve_decision. Defined.

Abbreviation item := (gmap string attr).

(** A row of the cluster-state table, as [save_baseline] writes it. The
    ISO rendering of [saved_at] is abstracted to the clock reading. *)
Record BaselineRow := {
  b_cluster_id : string;
  b_nodegroup_name : string;
  b_desired_size : Z;
  b_min_size : Z;
  b_max_size : Z;
  b_saved_at : Z;
  b_version : Z
}.

(** The bus message of the fan-out router. *)
Record Message := {
  m_operation_id : string;
  m_action : string;
  m_account_id : string;
  m_region : string;
  m_cluster_name : string;
  m_cluster_id : string;
  m_nodegroup_name : string;
  m_nodegroup_id : string;
  m_asg_name : string;
  m_original_desired : Z;
  m_original_min : Z;
  m_original_max : Z;
  m_initiated_by : string;
  m_node_type : string;
  m_target_desired : option Z;
  m_target_min : option Z;
  m_target_max : option Z
}.

(** One [sns.publish] call: the message and its two routing attributes. *)
Record Published := {
  p_message : Message;
  p_attr_action : string;
  p_attr_account_id : string
}.

(** The dictionaries discovery builds. A node group dictionary reaches the
    state manager and the router from several producers, some of which set
    only ["name"]; every key read with [.get] is therefore optional. *)
Record AsgInfo := {
  a_name : string;
  a_asg_name : string;
  a_asg_arn : string;
  a_status : string;
  a_desired_capacity : Z;
  a_min_size : Z;
  a_max_size : Z;
  a_instance_types : list string;
  a_capacity_type : string;
  a_tags : gmap string string;
  a_instances_count : nat
}.

Record NodeGroup := {
  ng_name : string;
  ng_asg_name : option string;
  ng_status : option string;
  ng_desired_size : option Z;
  ng_min_size : option Z;
  ng_max_size : option Z;
  ng_instance_types : list string;
  ng_capacity_type : option string;
  ng_tags : gmap string string;
  ng_type : option string;
  ng_target_desired : option Z;
  ng_target_min : option Z;
  ng_target_max : option Z
}.

Record Cluster := {
  c_account_id : string;
  c_region : string;
  c_cluster_name : string;
  c_cluster_arn : string;
  c_cluster_status : string;
  c_kubernetes_version : string;
  c_tags : Py.dict;
  c_auto_scaling_groups : list AsgInfo;
  c_node_groups : list NodeGroup
}.

Inductive level := DEBUG | INFO | WARNING | ERROR.

(** A log record: level and message (the [extra] dictionary is dropped). *)
Record LogRecord := { l_level : level; l_msg : string }.

Record Settings := {
  management_account_id : string;
  target_account_ids : string;
  operator_role_name : string;
  aws_region : string;
  target_regions : string
}.

Inductive table := Operations | ClusterState.

(** The requests the sources send to AWS; the fault oracle of the world
    decides per request whether the service answers or the call raises. *)
Inductive Request :=
  | StsAssumeRole (account : string)
  | OrgListAccounts
  | EksListClusters (account region : string)
  | EksDescribeCluster (account region name : string)
  | AsgDescribe (account region : string)
  | AsgUpdate (account region asg_name : string)
  | DdbPutItem (t : table) (key : string * string)
  | DdbGetItem (t : table) (key : string * string)
  | DdbDeleteItem (t : table) (key : string * string)
  | DdbUpdateItem (t : table) (key : string * string)
  | DdbQuery (t : table) (pk prefix : string)
  | DdbBatchWrite (t : table) (pk : string)
  | SnsPublish (nodegroup_id : string).

(** The world outside the process. [fault n r] is the exception, if any,
    with which the [n]-th request of the run fails when it is [r]. *)
Record World := {
  settings : Settings;
  clock : Z;
  fault : nat → Request → option exn;
  ticks : nat;
  org_accounts : list (string * string);
  eks : gmap (string * string) (list EksCluster);
  autoscaling : gmap (string * string) (list ASG);
  operations_table : gmap (string * string) item;
  cluster_state_table : gmap (string * string) BaselineRow;
  topic : list Published;
  logs : list LogRecord
}.

Definition set_ticks (n : nat) (w : World) : World :=
  {| settings := settings w; clock := clock w; fault := fault w; ticks := n;
     org_accounts := org_accounts w; eks := eks w;
     autoscaling := autoscaling w; operations_table := operations_table w;
     cluster_state_table := cluster_state_table w; topic := topic w;
     logs := logs w |}.

Definition set_clock (t : Z) (w : World) : World :=
  {| settings := settings w; clock := t; fault := fault w; ticks := ticks w;
     org_accounts := org_accounts w; eks := eks w;
     autoscaling := autoscaling w; operations_table := operations_table w;
     cluster_state_table := cluster_state_table w; topic := topic w;
     logs := logs w |}.

Definition set_autoscaling (a : gmap (string * string) (list ASG)) (w : World)
  : World :=
  {| settings := settings w; clock := clock w; fault := fault w;
     ticks := ticks w; org_accounts := org_accounts w; eks := eks w;
     autoscaling := a; operations_table := operations_table w;
     cluster_state_table := cluster_state_table w; topic := topic w;
     logs := logs w |}.

Definition set_operations_table (t : gmap (string * string) item) (w : World)
  : World :=
  {| settings := settings w; clock := clock w; fault := fault w;
     ticks := ticks w; org_accounts := org_accounts w; eks := eks w;
     autoscaling := autoscaling w; operations_table := t;
     cluster_state_table := cluster_state_table w; topic := topic w;
     logs := logs w |}.

Definition set_cluster_state_table (t : gmap (string * string) BaselineRow)
  (w : World) : World :=
  {| settings := settings w; clock := clock w; fault := fault w;
     ticks := ticks w; org_accounts := org_accounts w; eks := eks w;
     autoscaling := autoscaling w; operations_table := operations_table w;
     cluster_state_table := t; topic := topic w; logs := logs w |}.

Definition set_topic (p : list Published) (w : World) : World :=
  {| settings := settings w; clock := clock w; fault := fault w;
     ticks := ticks w; org_accounts := org_accounts w; eks := eks w;
     autoscaling := autoscaling w; operations_table := operations_table w;
     cluster_state_table := cluster_state_table w; topic := p;
     logs := logs w |}.

Definition set_logs (l : list LogRecord) (w : World) : World :=
  {| settings := settings w; clock := clock w; fault := fault w;
     ticks := ticks w; org_accounts := org_accounts w; eks := eks w;
     autoscaling := autoscaling w; operations_table := operations_table w;
     cluster_state_table := cluster_state_table w; topic := topic w;
     logs := l |}.

(** *** The monad: a computation returns or raises, and changes the world *)

Inductive outcome (A : Type) :=
  | Ret (a : A)
  | Raise (e : exn).
Arguments Ret {A} a.
Arguments Raise {A} e.

Definition M (A : Type) : Type := World → outcome A * World.

Definition run {A} (m : M A) (w : World) : outcome A * World := m w.

#[export] Instance M_ret : MRet M := λ A a w, (Ret a, w).

#[export] Instance M_bind : MBind M := λ A B f m w,
  match m w with
  | (Ret a, w') => f a w'
  | (Raise e, w') => (Raise e, w')
  end.

Definition raise {A} (e : exn) : M A := λ w, (Raise e, w).

(** [try: body  except C as e: handler(e)] where [C] is the class test
    [catches]; an exception outside [C] passes through. *)
Definition try_except {A} (body : M A) (catches : exn → bool)
  (handler : exn → M A) : M A := λ w,
  match body w with
  | (Ret a, w') => (Ret a, w')
  | (Raise e, w') => if catches e then handler e w' else (Raise e, w')
  end.

Definition any_exception (e : exn) : bool := true.

Definition get_world : M World := λ w, (Ret w, w).
Definition modify (f : World → World) : M unit := λ w, (Ret tt, f w).

Definition log (lv : level) (msg : string) : M unit :=
  modify (λ w, set_logs (logs w ++ [ {| l_level := lv; l_msg := msg |} ])%list w).

(** One request to AWS: it counts as a request, fails when the oracle says
    so, and is otherwise answered by [service]. *)
Definition request {A} (r : Request) (service : M A) : M A := λ w,
  let w' := set_ticks (S (ticks w)) w in
  match fault w (ticks w) r with
  | Some e => (Raise e, w')
  | None => service w'
  end.

(** A world in which no request fails for a reason of the oracle's. *)
Definition calm (w : World) : Prop := ∀ n r, fault w n r = None.

(** [for x in xs: body(x)]. *)
Fixpoint for_each {A} (xs : list A) (body : A → M unit) : M unit :=
  match xs with
  | [] => mret tt
  | x :: xs' => body x ;; for_each xs' body
  end.

(** [along R m]: in every world, whatever happens, a run of [m] ends in a
    world that [R] relates to the one it started in. [same proj] says that a
    part of the world is left as it was, [more_logs] that log records were
    only added. *)
Definition along {A} (R : relation World) (m : M A) : Prop :=
  ∀ w, R w (m w).2.

(** [returns_under P m]: from every world in which [P] holds, a run of [m]
    returns, in a world in which [P] holds again. *)
Definition returns_under {A} (P : World → Prop) (m : M A) : Prop :=
  ∀ w, P w → ∃ a w', m w = (Ret a, w') ∧ P w'.

Definition same {T} (proj : World → T) : relation World :=
  λ w w', proj w' = proj w.

Definition more_logs : relation World :=
  λ w w', logs w `prefix_of` logs w'.

(** The relations of interest do not look at the request counter, at the
    clock or at the log, which almost every call changes. *)
Class Inert (R : relation World) : Prop := {
  inert_ticks : ∀ n w, R w (set_ticks n w);
  inert_clock : ∀ t w, R w (set_clock t w);
  inert_logs : ∀ l w, R w (set_logs (logs w ++ l) w)
}.

(** Unfolds the monad's plumbing so that a run can be computed. *)
Ltac run_monad :=
  unfold run, try_except, request, get_world, modify, log, raise,
    mbind, M_bind, mret, M_ret in *; simpl in *.

End Aws.

(** ** The operation state machine ([state/state_manager.py]) *)

Module StateManager.
Import Aws.

(** *** The operations table as DynamoDB serves it *)

(** Every stored item carries its key attributes. *)
Definition key_item (key : string * string) : item :=
  {[ "PK" := AS key.1; "SK" := AS key.2 ]}.

(** The two forms of SET action the update expressions use:
    [name = :v] and [name = name + :v]. *)
Inductive set_action :=
  | SetValue (name : string) (v : attr)
  | SetIncrement (name : string) (by_ : Z).

(** An operand is read from the item as it was before the update; an
    operand that is missing or not a number makes the update invalid. *)
Definition apply_set (old : item) (acc : option item) (a : set_action)
  : option item :=
  match acc, a with
  | None, _ => None
  | Some it, SetValue name v => Some (<[name := v]> it)
  | Some it, SetIncrement name d =>
      match old !! name with
      | Some (AN x) => Some (<[name := AN (x + d)]> it)
      | _ => None
      end
  end.

(** [update_item]: an update of a key that holds no item creates one. *)
Definition update_item (key : string * string) (actions : list set_action)
  : M unit := λ w,
  let old := default (key_item key) (operations_table w !! key) in
  match foldl (apply_set old) (Some old) actions with
  | Some new =>
      (Ret tt, set_operations_table (<[key := new]> (operations_table w)) w)
  | None =>
      (Raise (ClientError "ValidationException" "UpdateItem"
                "The provided expression refers to an attribute that does not exist in the item"),
       w)
  end.

(** [query] with [PK = :pk AND begins_with(SK, :prefix)]. The items come in
    the map's enumeration order; the callers only use the set of statuses. *)
Definition query (pk prefix : string) : M (list item) :=
  w ← get_world;
  mret (snd <$> filter (λ kv, kv.1.1 = pk ∧ String.prefix prefix kv.1.2 = true)
                  (map_to_list (operations_table w))).

(** [put_item] under
    [ConditionExpression="attribute_not_exists(PK) OR expires_at < :now"].
    As every stored item has a PK, the first disjunct holds exactly when
    nothing is stored under the key; a comparison with a missing or
    non-numeric [expires_at] is false. *)
Definition lock_condition (existing : option item) (now : Z) : bool :=
  match existing with
  | None => true
  | Some old =>
      match old !! "expires_at" with
      | Some (AN e) => bool_decide (e < now)
      | _ => false
      end
  end.

Definition put_item_lock (key : string * string) (new : item) (now : Z)
  : M unit := λ w,
  if lock_condition (operations_table w !! key) now then
    (Ret tt, set_operations_table (<[key := new]> (operations_table w)) w)
  else
    (Raise (ClientError "ConditionalCheckFailedException" "PutItem"
              "The conditional request failed"), w).

(** *** The methods of [StateManager] *)

Definition THIRTY_DAYS : Z := 30 * 86400.

Definition cluster_id_of (c : Cluster) : string :=
  c_account_id c ++ ":" ++ c_region c ++ ":" ++ c_cluster_name c.

Definition meta_item (operation_id action initiated_by : string)
  (clusters : list Cluster) (schedule_id : option string) (now : Z) : item :=
  let total_clusters := Z.of_nat (length clusters) in
  let total_ngs :=
    Z.of_nat (foldr Nat.add 0%nat ((λ c, List.length (c_node_groups c)) <$> clusters)) in
  let base : item :=
    list_to_map
      [ ("PK", AS ("OP#" ++ operation_id)); ("SK", AS "META");
        ("operation_id", AS operation_id); ("action", AS action);
        ("status", AS "IN_PROGRESS"); ("initiated_by", AS initiated_by);
        ("total_clusters", AN total_clusters);
        ("total_nodegroups", AN total_ngs);
        ("created_at", AN now); ("updated_at", AN now);
        ("expires_at", AN (now + THIRTY_DAYS)) ] in
  match schedule_id with
  | Some sid => if String.eqb sid "" then base else <["schedule_id" := AS sid]> base
  | None => base
  end.

Definition cluster_item (operation_id : string) (c : Cluster) (now : Z) : item :=
  list_to_map
    [ ("PK", AS ("OP#" ++ operation_id));
      ("SK", AS ("CLUSTER#" ++ cluster_id_of c));
      ("cluster_id", AS (cluster_id_of c));
      ("account_id", AS (c_account_id c)); ("region", AS (c_region c));
      ("cluster_name", AS (c_cluster_name c)); ("status", AS "PENDING");
      ("total_nodegroups", AN (Z.of_nat (length (c_node_groups c))));
      ("created_at", AN now); ("updated_at", AN now);
      ("expires_at", AN (now + THIRTY_DAYS)) ].

Definition ng_item (operation_id action : string) (c : Cluster)
  (ng : NodeGroup) (now : Z) : item :=
  let ng_id := cluster_id_of c ++ ":" ++ ng_name ng in
  list_to_map
    [ ("PK", AS ("OP#" ++ operation_id)); ("SK", AS ("NG#" ++ ng_id));
      ("nodegroup_id", AS ng_id); ("cluster_id", AS (cluster_id_of c));
      ("account_id", AS (c_account_id c)); ("region", AS (c_region c));
      ("cluster_name", AS (c_cluster_name c));
      ("nodegroup_name", AS (ng_name ng)); ("action", AS action);
      ("status", AS "PENDING");
      ("original_desired", AN (default 0 (ng_desired_size ng)));
      ("original_min", AN (default 0 (ng_min_size ng)));
      ("original_max", AN (default 0 (ng_max_size ng)));
      ("current_desired", AN (default 0 (ng_desired_size ng)));
      ("retry_count", AN 0);
      ("created_at", AN now); ("updated_at", AN now);
      ("expires_at", AN (now + THIRTY_DAYS)) ].

Definition item_key (it : item) : string * string :=
  (match it !! "PK" with Some (AS s) => s | _ => "" end,
   match it !! "SK" with Some (AS s) => s | _ => "" end).

(** The rows are written through a batch writer, one unconditional put per
    item; the batching into requests is abstracted to one request. *)
Definition create_operation (operation_id action initiated_by : string)
  (clusters : list Cluster) (schedule_id : option string) : M item :=
  w ← get_world;
  let now := clock w in
  let meta := meta_item operation_id action initiated_by clusters schedule_id now in
  let items :=
    meta :: concat ((λ c, cluster_item operation_id c now
                          :: ((λ ng, ng_item operation_id action c ng now)
                                <$> c_node_groups c)) <$> clusters) in
  request (DdbBatchWrite Operations ("OP#" ++ operation_id))
    (modify (λ w, set_operations_table
                    (foldl (λ t it, <[item_key it := it]> t)
                       (operations_table w) items) w));;
  log INFO "Operation created";;
  mret meta.

(** *** Status derivation *)

(** [status_set = set(statuses)] is a finite set of strings; the tests
    [status_set == {"COMPLETED"}] and ["PENDING" in status_set] are set
    equality and membership. *)
Definition _derive_status (statuses : list string) : string :=
  let status_set : gset string := list_to_set statuses in
  if decide (status_set = ∅) then "UNKNOWN"
  else if decide (status_set = {["COMPLETED"]}) then "COMPLETED"
  else if decide (status_set = {["FAILED"]}) then "FAILED"
  else if bool_decide ("PENDING" ∈ status_set)
          || bool_decide ("IN_PROGRESS" ∈ status_set) then "IN_PROGRESS"
  else if bool_decide ("COMPLETED" ∈ status_set)
          && bool_decide ("FAILED" ∈ status_set) then "PARTIAL_FAILURE"
  else "IN_PROGRESS".

(** The statuses a child row (NG or CLUSTER while pending) can carry. *)
Definition child_statuses : list string :=
  ["PENDING"; "IN_PROGRESS"; "COMPLETED"; "FAILED"].


(** [row.get("status", "")]; the sources only ever store strings there. *)
Definition status_of (it : item) : string :=
  match it !! "status" with Some (AS s) => s | _ => "" end.

Definition get_operation_meta (operation_id : string) : M (option item) :=
  request (DdbGetItem Operations ("OP#" ++ operation_id, "META"))
    (w ← get_world; mret (operations_table w !! ("OP#" ++ operation_id, "META"))).

Definition get_operation_clusters (operation_id : string) : M (list item) :=
  request (DdbQuery Operations ("OP#" ++ operation_id) "CLUSTER#")
    (query ("OP#" ++ operation_id) "CLUSTER#").

Definition get_cluster_nodegroups (operation_id cluster_id : string)
  : M (list item) :=
  request (DdbQuery Operations ("OP#" ++ operation_id)
             ("NG#" ++ cluster_id ++ ":"))
    (query ("OP#" ++ operation_id) ("NG#" ++ cluster_id ++ ":")).

Definition _update_cluster_status (operation_id cluster_id : string) : M unit :=
  ngs ← get_cluster_nodegroups operation_id cluster_id;
  let derived_status := _derive_status (status_of <$> ngs) in
  w ← get_world;
  request (DdbUpdateItem Operations
             ("OP#" ++ operation_id, "CLUSTER#" ++ cluster_id))
    (update_item ("OP#" ++ operation_id, "CLUSTER#" ++ cluster_id)
       [SetValue "status" (AS derived_status); SetValue "updated_at" (AN (clock w))]).

Definition _update_meta_status (operation_id : string) : M unit :=
  clusters ← get_operation_clusters operation_id;
  let derived_status := _derive_status (status_of <$> clusters) in
  w ← get_world;
  request (DdbUpdateItem Operations ("OP#" ++ operation_id, "META"))
    (update_item ("OP#" ++ operation_id, "META")
       [SetValue "status" (AS derived_status); SetValue "updated_at" (AN (clock w))]).

(** [if error_message:] is false for [None] and for the empty string. *)
Definition truthy (s : option string) : bool :=
  match s with
  | Some s => negb (String.eqb s "")
  | None => false
  end.

Definition update_nodegroup_status (operation_id ng_id status : string)
  (error_message : option string) (current_desired : option Z) : M unit :=
  w ← get_world;
  let now := clock w in
  let actions :=
    ([SetValue "status" (AS status); SetValue "updated_at" (AN now)]
     ++ (if truthy error_message
         then [SetValue "error_message" (AS (default "" error_message))] else [])
     ++ match current_desired with
        | Some d => [SetValue "current_desired" (AN d)]
        | None => []
        end
     ++ (if String.eqb status "FAILED" then [SetIncrement "retry_count" 1] else []))%list in
  request (DdbUpdateItem Operations ("OP#" ++ operation_id, "NG#" ++ ng_id))
    (update_item ("OP#" ++ operation_id, "NG#" ++ ng_id) actions);;
  let cluster_id := Py.join ":" (take 3 (Py.split ":" ng_id)) in
  _update_cluster_status operation_id cluster_id;;
  _update_meta_status operation_id.

(** The key and the item of a lock row. *)
Definition lock_key_of (lock_key : string) : string * string :=
  ("LOCK#" ++ lock_key, "LOCK").

Definition lock_item (lock_key : string) (now ttl : Z) : item :=
  <["acquired_at" := AN now]>
    (<["expires_at" := AN (now + ttl)]> (key_item (lock_key_of lock_key))).

Definition acquire_idempotency_lock (lock_key : string) (ttl_seconds : Z)
  : M bool :=
  w ← get_world;
  let now := clock w in
  let key := lock_key_of lock_key in
  try_except
    (request (DdbPutItem Operations key)
       (put_item_lock key (lock_item lock_key now ttl_seconds) now);;
     mret true)
    is_client_error
    (λ e,
       if String.eqb (error_code e) "ConditionalCheckFailedException"
       then mret false
       else raise e).

(** The operations table answers: no update and no query fails for a
    reason of the oracle's. *)
Definition operations_answer (w : World) : Prop :=
  (∀ n key, fault w n (DdbUpdateItem Operations key) = None)
  ∧ (∀ n pk prefix, fault w n (DdbQuery Operations pk prefix) = None).

End StateManager.

(** ** The baseline store ([state/cluster_baseline.py]) *)

Module ClusterBaseline.
Import Aws.

(** DynamoDB's answer to [put_item] on the cluster-state table under
    [ConditionExpression="attribute_not_exists(cluster_id)"]: the condition
    is evaluated on the item that has the same primary key. *)
Definition put_item_if_absent (row : BaselineRow) : M unit := λ w,
  let key := (b_cluster_id row, b_nodegroup_name row) in
  match cluster_state_table w !! key with
  | Some _ =>
      (Raise (ClientError "ConditionalCheckFailedException" "PutItem"
                "The conditional request failed"), w)
  | None =>
      (Ret tt, set_cluster_state_table (<[key := row]> (cluster_state_table w)) w)
  end.

Definition save_baseline (cluster_id nodegroup_name : string)
  (desired_size min_size max_size : Z) : M bool :=
  w ← get_world;
  let now := clock w in
  try_except
    (request (DdbPutItem ClusterState (cluster_id, nodegroup_name))
       (put_item_if_absent
          {| b_cluster_id := cluster_id;
             b_nodegroup_name := nodegroup_name;
             b_desired_size := desired_size;
             b_min_size := min_size;
             b_max_size := max_size;
             b_saved_at := now;
             b_version := 1 |});;
     log INFO "Baseline saved";;
     mret true)
    is_client_error
    (λ e,
       if String.eqb (error_code e) "ConditionalCheckFailedException" then
         log INFO "Baseline already exists, skipping overwrite";;
         mret false
       else raise e).

Definition get_baseline (cluster_id nodegroup_name : string)
  : M (option BaselineRow) :=
  request (DdbGetItem ClusterState (cluster_id, nodegroup_name))
    (w ← get_world; mret (cluster_state_table w !! (cluster_id, nodegroup_name))).

Definition delete_baseline (cluster_id nodegroup_name : string) : M unit :=
  try_except
    (request (DdbDeleteItem ClusterState (cluster_id, nodegroup_name))
       (modify (λ w, set_cluster_state_table
                       (delete (cluster_id, nodegroup_name)
                          (cluster_state_table w)) w));;
     log INFO "Baseline deleted")
    is_client_error
    (λ e, log ERROR "Failed to delete baseline").

Definition get_cluster_baselines (cluster_id : string) : M (list BaselineRow) :=
  request (DdbQuery ClusterState cluster_id "")
    (w ← get_world;
     mret (snd <$> filter (λ kv, kv.1.1 = cluster_id)
                     (map_to_list (cluster_state_table w)))).

End ClusterBaseline.

(** ** Settings and the session factory ([config.py]) *)

Module Config.
Import Aws.

Definition parsed_target_regions (s : Settings) : list string :=
  if String.eqb (target_regions s) "" then [aws_region s]
  else Py.csv (target_regions s).

Definition parsed_target_account_ids (s : Settings) : list string :=
  Py.csv (target_account_ids s).

(** The TTL cache of sessions is not modelled: a cache hit behaves like an
    AssumeRole call that succeeds. A refusal becomes a RuntimeError. *)
Definition get_assumed_role_session (account_id : string) : M unit :=
  w ← get_world;
  let role_arn :=
    "arn:aws:iam::" ++ account_id ++ ":role/" ++ operator_role_name (settings w) in
  try_except
    (request (StsAssumeRole account_id) (mret tt);;
     log INFO "Assumed role successfully")
    is_client_error
    (λ e,
       log ERROR "Failed to assume role";;
       raise (RuntimeError ("Failed to assume role " ++ role_arn
                            ++ " in account " ++ account_id ++ ": " ++ str e))).

End Config.

(** ** The discovery pipeline ([discovery.py]) *)

Module Discovery.
Import Aws.

Definition _resolve_account_ids : M (list string) :=
  w ← get_world;
  let s := settings w in
  match Config.parsed_target_account_ids s with
  | (_ :: _) as ids => log INFO "Using explicit target accounts";; mret ids
  | [] =>
      try_except
        (accounts ← request OrgListAccounts
                      (w ← get_world; mret (org_accounts w));
         let account_ids :=
           fst <$> filter (λ a, a.2 = "ACTIVE" ∧ a.1 ≠ management_account_id s)
                     accounts in
         log INFO "Discovered accounts from Organizations";;
         mret account_ids)
        is_client_error
        (λ e, log ERROR "Failed to list accounts from Organizations";; mret [])
  end.

(** EKS answers [describe_cluster] for a name it knows. *)
Definition eks_describe_cluster (account_id region cluster_name : string)
  : M EksCluster := λ w,
  match filter (λ c, ec_name c = cluster_name)
          (default [] (eks w !! (account_id, region))) with
  | c :: _ => (Ret c, w)
  | [] => (Raise (ClientError "ResourceNotFoundException" "DescribeCluster"
                    ("No cluster found for name: " ++ cluster_name)), w)
  end.

Definition _describe_cluster (account_id region cluster_name : string)
  : M (option Cluster) :=
  try_except
    (cluster ← request (EksDescribeCluster account_id region cluster_name)
                 (eks_describe_cluster account_id region cluster_name);
     mret (Some {| c_account_id := account_id;
                   c_region := region;
                   c_cluster_name := ec_name cluster;
                   c_cluster_arn := ec_arn cluster;
                   c_cluster_status := ec_status cluster;
                   c_kubernetes_version := default "unknown" (ec_version cluster);
                   c_tags := default [] (ec_tags cluster);
                   c_auto_scaling_groups := [];
                   c_node_groups := [] |}))
    is_client_error
    (λ e, log ERROR "Failed to describe cluster";; mret None).

Definition _extract_instance_types (asg : ASG) : list string :=
  let instance_types :=
    match MixedInstancesPolicy_ asg with
    | Some mip =>
        omap (λ o, match o with
                   | Some it => if String.eqb it "" then None else Some it
                   | None => None
                   end) (Overrides mip)
    | None => []
    end in
  match instance_types with
  | _ :: _ => instance_types
  | [] =>
      if LaunchTemplate asg then ["(from-launch-template)"]
      else match LaunchConfigurationName asg with
           | Some n => if String.eqb n "" then [] else ["(from-launch-config)"]
           | None => []
           end
  end.

Definition _extract_capacity_type (asg : ASG) : string :=
  match MixedInstancesPolicy_ asg with
  | Some mip =>
      let on_demand_pct := default 100 (OnDemandPercentageAboveBaseCapacity mip) in
      if on_demand_pct =? 0 then "SPOT"
      else if on_demand_pct <? 100 then "MIXED"
      else "ON_DEMAND"
  | None => "ON_DEMAND"
  end.

Definition _matches_labels (tags label_filter : Py.dict) : bool :=
  forallb (λ kv, bool_decide (Py.dict_get tags kv.1 = Some kv.2)) label_filter.

(** Whether an ASG belongs to the cluster: its [eks:cluster-name] tag is the
    cluster's name or it has the key [kubernetes.io/cluster/<name>]. *)
Definition asg_of_cluster (cluster_name : string) (asg_tags : gmap string string)
  : bool :=
  String.eqb (default "" (asg_tags !! "eks:cluster-name")) cluster_name
  || bool_decide (is_Some (asg_tags !! ("kubernetes.io/cluster/" ++ cluster_name))).

Definition asg_info (asg : ASG) (asg_tags : gmap string string) : AsgInfo :=
  {| a_name :=
       default (default (AutoScalingGroupName asg) (asg_tags !! "Name"))
         (asg_tags !! "eks:nodegroup-name");
     a_asg_name := AutoScalingGroupName asg;
     a_asg_arn := AutoScalingGroupARN asg;
     a_status :=
       if (DesiredCapacity asg =? 0) && (MinSize asg =? 0)
       then "STOPPED" else "ACTIVE";
     a_desired_capacity := DesiredCapacity asg;
     a_min_size := MinSize asg;
     a_max_size := MaxSize asg;
     a_instance_types := _extract_instance_types asg;
     a_capacity_type := _extract_capacity_type asg;
     a_tags := asg_tags;
     a_instances_count := Instances asg |}.

(** The loop over [all_asgs] that fills [matching_asgs]. *)
Fixpoint matching_asgs (cluster_name : string) (all_asgs : list ASG)
  : M (list AsgInfo) :=
  match all_asgs with
  | [] => mret []
  | asg :: rest =>
      let asg_tags := Py.dict_of_pairs (Tags asg) in
      if asg_of_cluster cluster_name asg_tags then
        if bool_decide (asg_tags !! "eks-operator/skip" = Some "true") then
          log INFO "Skipping node group due to skip tag";;
          matching_asgs cluster_name rest
        else
          log INFO "Found ASG for cluster";;
          found ← matching_asgs cluster_name rest;
          mret (asg_info asg asg_tags :: found)
      else matching_asgs cluster_name rest
  end.

(** The paginated [describe_auto_scaling_groups] is one request here. *)
Definition describe_auto_scaling_groups (account_id region : string)
  : M (list ASG) :=
  request (AsgDescribe account_id region)
    (w ← get_world; mret (default [] (autoscaling w !! (account_id, region)))).

Definition _discover_auto_scaling_groups (account_id region cluster_name : string)
  : M (list AsgInfo) :=
  try_except
    (all_asgs ← describe_auto_scaling_groups account_id region;
     matching_asgs cluster_name all_asgs)
    is_client_error
    (λ e, log ERROR "Failed to discover ASGs";; mret []).

Definition node_group_of (asg : AsgInfo) : NodeGroup :=
  {| ng_name := a_name asg;
     ng_asg_name := Some (a_asg_name asg);
     ng_status := Some (a_status asg);
     ng_desired_size := Some (a_desired_capacity asg);
     ng_min_size := Some (a_min_size asg);
     ng_max_size := Some (a_max_size asg);
     ng_instance_types := a_instance_types asg;
     ng_capacity_type := Some (a_capacity_type asg);
     ng_tags := a_tags asg;
     ng_type := Some "asg";
     ng_target_desired := None;
     ng_target_min := None;
     ng_target_max := None |}.

(** The production guard: [env_key] is the first key, in the dictionary's
    order, that lowers to "env" or "environment"; [env_tag] is the lowered
    value under that key. *)
Definition env_key (tags : Py.dict) : option string :=
  head (filter (λ k, Py.lower k ∈ ["env"; "environment"]) (Py.dict_keys tags)).

Definition env_tag (tags : Py.dict) : string :=
  match env_key tags with
  | Some k =>
      if String.eqb k "" then ""
      else Py.lower (default "" (Py.dict_get tags k))
  | None => ""
  end.

Definition is_production (tags : Py.dict) : bool :=
  bool_decide (env_tag tags ∈ ["prod"; "production"]).

(** The guard as the specification words it, for comparison: some tag whose
    key lowers to "env" or "environment" has a value that lowers to "prod"
    or "production". *)
Definition spec_production_tagged (tags : Py.dict) : bool :=
  existsb (λ kv, bool_decide (Py.lower kv.1 ∈ ["env"; "environment"])
                 && bool_decide (Py.lower kv.2 ∈ ["prod"; "production"])) tags.

Definition with_asgs (cluster : Cluster) (asgs : list AsgInfo) : Cluster :=
  {| c_account_id := c_account_id cluster;
     c_region := c_region cluster;
     c_cluster_name := c_cluster_name cluster;
     c_cluster_arn := c_cluster_arn cluster;
     c_cluster_status := c_cluster_status cluster;
     c_kubernetes_version := c_kubernetes_version cluster;
     c_tags := c_tags cluster;
     c_auto_scaling_groups := asgs;
     c_node_groups := node_group_of <$> asgs |}.

(** The loop over [cluster_names] in [_discover_account_clusters]. *)
Fixpoint discover_named (account_id region : string)
  (label_filter : option Py.dict) (cluster_names : list string)
  : M (list Cluster) :=
  match cluster_names with
  | [] => mret []
  | cluster_name :: rest =>
      described ← _describe_cluster account_id region cluster_name;
      match described with
      | None => discover_named account_id region label_filter rest
      | Some cluster =>
          let tags := c_tags cluster in
          if is_production tags then
            log WARNING "Skipping production cluster";;
            discover_named account_id region label_filter rest
          else if match label_filter with
                  | Some ((_ :: _) as lf) => negb (_matches_labels tags lf)
                  | _ => false
                  end
          then discover_named account_id region label_filter rest
          else
            asgs ← _discover_auto_scaling_groups account_id region cluster_name;
            clusters ← discover_named account_id region label_filter rest;
            mret (with_asgs cluster asgs :: clusters)
      end
  end.

Definition _discover_account_clusters (account_id region : string)
  (label_filter : option Py.dict) : M (list Cluster) :=
  try_except
    (Config.get_assumed_role_session account_id;;
     cluster_names ←
       request (EksListClusters account_id region)
         (w ← get_world;
          mret (ec_name <$> default [] (eks w !! (account_id, region))));
     discover_named account_id region label_filter cluster_names)
    any_exception
    (λ e, log ERROR "Failed to discover clusters in account";; raise e).

(** The tasks of the thread pool, one per (account, region), are run here
    one after the other in the order of submission; the pool gathers their
    results in the order of completion, so only the membership of the
    result, not its order, is the program's. A task that raises is logged
    and contributes nothing. *)
Fixpoint gather (label_filter : option Py.dict)
  (tasks : list (string * string)) : M (list Cluster) :=
  match tasks with
  | [] => mret []
  | (account_id, region) :: rest =>
      clusters ← try_except
                   (_discover_account_clusters account_id region label_filter)
                   any_exception
                   (λ e, log ERROR "Discovery task failed";; mret []);
      more ← gather label_filter rest;
      mret (clusters ++ more)%list
  end.

Definition discover_all_resources (label_filter : option Py.dict)
  : M (list Cluster) :=
  w ← get_world;
  account_ids ← _resolve_account_ids;
  let regions := Config.parsed_target_regions (settings w) in
  log INFO "Starting multi-region EKS discovery";;
  gather label_filter
    (account_id ← account_ids; region ← regions; [(account_id, region)]).

Definition discover_clusters (label_filter : option Py.dict) : M (list Cluster) :=
  discover_all_resources label_filter.

End Discovery.

(** ** The capacity controller ([operations/eks_controller.py]) *)

Module EKSController.
Import Aws.

(** *** tenacity's [@retry] as the three methods configure it *)

(** [wait_exponential(multiplier=2, min=4, max=60)]: the wait after the
    [n]-th attempt is [2 * 2^(n-1)] seconds clamped to [4, 60]. *)
Definition wait_exponential (attempt_number : nat) : Z :=
  Z.max 4 (Z.min (2 * 2 ^ (Z.of_nat attempt_number - 1)) 60).

Definition sleep (seconds : Z) : M unit :=
  modify (λ w, set_clock (clock w + seconds) w).

(** [retry_if_exception_type(ClientError)] with [stop_after_attempt]: the
    body is run again after a client error until the attempts are used up,
    and then a RetryError is raised; any other exception passes at once. *)
Fixpoint retry_from {A} (attempt_number remaining : nat) (before_sleep : bool)
  (body : M A) : M A :=
  match remaining with
  | O => body
  | S more =>
      try_except body is_client_error
        (λ e,
           match more with
           | O => raise (RetryError e)
           | S _ =>
               (if before_sleep then log WARNING "Retrying ASG API call"
                else mret tt);;
               sleep (wait_exponential attempt_number);;
               retry_from (S attempt_number) more before_sleep body
           end)
  end.

Definition retry {A} (before_sleep : bool) (body : M A) : M A :=
  retry_from 1 5 before_sleep body.

(** *** The Auto Scaling service *)

Definition describe_by_name (account_id region asg_name : string)
  : M (list ASG) :=
  request (AsgDescribe account_id region)
    (w ← get_world;
     mret (filter (λ g, AutoScalingGroupName g = asg_name)
             (default [] (autoscaling w !! (account_id, region))))).

Definition resize (min_size desired max_size : option Z) (g : ASG) : ASG :=
  {| AutoScalingGroupName := AutoScalingGroupName g;
     AutoScalingGroupARN := AutoScalingGroupARN g;
     DesiredCapacity := default (DesiredCapacity g) desired;
     MinSize := default (MinSize g) min_size;
     MaxSize := default (MaxSize g) max_size;
     Tags := Tags g;
     MixedInstancesPolicy_ := MixedInstancesPolicy_ g;
     LaunchTemplate := LaunchTemplate g;
     LaunchConfigurationName := LaunchConfigurationName g;
     Instances := Instances g |}.

(** The groups of one account and region. *)
Definition groups (account_id region : string) (w : World) : list ASG :=
  default [] (autoscaling w !! (account_id, region)).

Definition resize_named (asg_name : string) (min_size desired max_size : option Z)
  (g : ASG) : ASG :=
  if String.eqb (AutoScalingGroupName g) asg_name
  then resize min_size desired max_size g else g.

(** [update_auto_scaling_group]: the named group takes the sizes given; an
    unknown name is a client error. The service's own validation of the
    sizes against each other is not modelled. *)
Definition update_auto_scaling_group (account_id region asg_name : string)
  (min_size desired max_size : option Z) : M unit :=
  request (AsgUpdate account_id region asg_name)
    (λ w,
       if existsb (λ g, String.eqb (AutoScalingGroupName g) asg_name)
            (groups account_id region w) then
         (Ret tt,
          set_autoscaling
            (<[(account_id, region) :=
                 resize_named asg_name min_size desired max_size
                 <$> groups account_id region w]> (autoscaling w)) w)
       else
         (Raise (ClientError "ValidationError" "UpdateAutoScalingGroup"
                   "AutoScalingGroup name not found - null"), w)).

(** *** ASG resolution *)

(** The two nested loops of [_find_asg_name] over the groups of all pages. *)
Fixpoint find_asg (cluster_name nodegroup_name : string) (asgs : list ASG)
  : option string :=
  match asgs with
  | [] => None
  | asg :: rest =>
      let asg_tags := Py.dict_of_pairs (Tags asg) in
      let tag_cluster := default "" (asg_tags !! "eks:cluster-name") in
      if negb (String.eqb tag_cluster cluster_name)
         && negb (bool_decide
                    (is_Some (asg_tags !! ("kubernetes.io/cluster/" ++ cluster_name))))
      then find_asg cluster_name nodegroup_name rest
      else
        let tag_nodegroup := default "" (asg_tags !! "eks:nodegroup-name") in
        if negb (String.eqb tag_nodegroup "")
           && String.eqb tag_nodegroup nodegroup_name
        then Some (AutoScalingGroupName asg)
        else if Py.contains nodegroup_name (AutoScalingGroupName asg)
        then Some (AutoScalingGroupName asg)
        else Some (AutoScalingGroupName asg)
  end.

Definition _find_asg_name (account_id region cluster_name nodegroup_name : string)
  : M (option string) :=
  asgs ← Discovery.describe_auto_scaling_groups account_id region;
  mret (find_asg cluster_name nodegroup_name asgs).

(** [if not asg_name: asg_name = self._find_asg_name(...)], with the
    RuntimeError when nothing is found. *)
Definition resolve_asg_name (account_id region cluster_name nodegroup_name : string)
  (asg_name : option string) (not_found : string) : M string :=
  if StateManager.truthy asg_name then mret (default "" asg_name)
  else
    found ← _find_asg_name account_id region cluster_name nodegroup_name;
    if StateManager.truthy found then mret (default "" found)
    else raise (RuntimeError not_found).

(** *** The three operations *)

Inductive result :=
  | SKIPPED (original_desired original_min original_max : Z)
  | STOPPED (original_desired original_min original_max : Z)
  | STARTED (desired_size min_size max_size : Z)
  | SCALED (asg_name : string) (desired_size min_size max_size : option Z).

Definition stop_nodegroup (account_id region cluster_name nodegroup_name : string)
  (asg_name : option string) : M result :=
  retry true
    (Config.get_assumed_role_session account_id;;
     asg_name ← resolve_asg_name account_id region cluster_name nodegroup_name
                  asg_name
                  ("Cannot find ASG for cluster=" ++ cluster_name
                   ++ ", nodegroup=" ++ nodegroup_name);
     groups ← describe_by_name account_id region asg_name;
     match groups with
     | [] => raise (RuntimeError ("ASG " ++ asg_name ++ " not found"))
     | asg :: _ =>
         let original_desired := DesiredCapacity asg in
         let original_min := MinSize asg in
         let original_max := MaxSize asg in
         if (original_desired =? 0) && (original_min =? 0) then
           log INFO "ASG already at zero, skipping";;
           mret (SKIPPED original_desired original_min original_max)
         else
           update_auto_scaling_group account_id region asg_name
             (Some 0) (Some 0) (Some original_max);;
           log INFO "ASG stopped (scaled to zero)";;
           mret (STOPPED original_desired original_min original_max)
     end).

Definition start_nodegroup (account_id region cluster_name nodegroup_name : string)
  (desired_size min_size max_size : Z) (asg_name : option string) : M result :=
  retry true
    (Config.get_assumed_role_session account_id;;
     asg_name ← resolve_asg_name account_id region cluster_name nodegroup_name
                  asg_name
                  ("Cannot find ASG for cluster=" ++ cluster_name
                   ++ ", nodegroup=" ++ nodegroup_name);
     update_auto_scaling_group account_id region asg_name
       (Some min_size) (Some desired_size) (Some max_size);;
     log INFO "ASG started (restored to baseline)";;
     mret (STARTED desired_size min_size max_size)).

Definition scale_nodegroup (account_id region cluster_name nodegroup_name : string)
  (desired_size min_size max_size : option Z) (asg_name : option string)
  : M result :=
  retry false
    (Config.get_assumed_role_session account_id;;
     asg_name ← resolve_asg_name account_id region cluster_name nodegroup_name
                  asg_name
                  ("ASG not found for " ++ cluster_name ++ "/" ++ nodegroup_name);
     update_auto_scaling_group account_id region asg_name
       min_size desired_size max_size;;
     log INFO "ASG scaled";;
     mret (SCALED asg_name desired_size min_size max_size)).

End EKSController.

(** ** The fan-out router ([operations/operation_router.py]) *)

Module OperationRouter.
Import Aws.

Definition message_of (operation_id action initiated_by : string)
  (cluster : Cluster) (ng : NodeGroup) : Message :=
  let cluster_id := StateManager.cluster_id_of cluster in
  {| m_operation_id := operation_id;
     m_action := action;
     m_account_id := c_account_id cluster;
     m_region := c_region cluster;
     m_cluster_name := c_cluster_name cluster;
     m_cluster_id := cluster_id;
     m_nodegroup_name := ng_name ng;
     m_nodegroup_id := cluster_id ++ ":" ++ ng_name ng;
     m_asg_name := default "" (ng_asg_name ng);
     m_original_desired := default 0 (ng_desired_size ng);
     m_original_min := default 0 (ng_min_size ng);
     m_original_max := default 0 (ng_max_size ng);
     m_initiated_by := initiated_by;
     m_node_type := default "asg" (ng_type ng);
     m_target_desired := ng_target_desired ng;
     m_target_min := ng_target_min ng;
     m_target_max := ng_target_max ng |}.

(** [sns_client.publish]; the JSON text of the message is not modelled. *)
Definition publish (message : Message) (action account_id : string) : M unit :=
  request (SnsPublish (m_nodegroup_id message))
    (modify (λ w, set_topic
                    (topic w ++ [ {| p_message := message;
                                     p_attr_action := action;
                                     p_attr_account_id := account_id |} ])%list
                    w)).

(** The inner loop, over the node groups of one cluster. *)
Fixpoint publish_nodegroups (operation_id action initiated_by : string)
  (cluster : Cluster) (ngs : list NodeGroup) (nodegroups_count : Z) : M Z :=
  match ngs with
  | [] => mret nodegroups_count
  | ng :: rest =>
      publish (message_of operation_id action initiated_by cluster ng)
        action (c_account_id cluster);;
      publish_nodegroups operation_id action initiated_by cluster rest
        (nodegroups_count + 1)
  end.

(** The outer loop, over the clusters. *)
Fixpoint publish_clusters (operation_id action initiated_by : string)
  (clusters : list Cluster) (clusters_count nodegroups_count : Z) : M (Z * Z) :=
  match clusters with
  | [] => mret (clusters_count, nodegroups_count)
  | cluster :: rest =>
      nodegroups_count ←
        publish_nodegroups operation_id action initiated_by cluster
          (c_node_groups cluster) nodegroups_count;
      publish_clusters operation_id action initiated_by rest
        (clusters_count + 1) nodegroups_count
  end.

(** The messages of an operation in the order of the two loops, and the
    publication of one of them. *)
Definition messages_of (operation_id action initiated_by : string)
  (clusters : list Cluster) : list Message :=
  cluster ← clusters;
  message_of operation_id action initiated_by cluster <$> c_node_groups cluster.

Definition published_of (action : string) (message : Message) : Published :=
  {| p_message := message;
     p_attr_action := action;
     p_attr_account_id := m_account_id message |}.

(** What a run of one of the two loops leaves behind: the first [k]
    messages are on the topic; a run that returns published all of them,
    and a run that raises stopped before one of them because the oracle
    failed a publish request. *)
Definition published_prefix {A} (w : World) (action : string)
  (messages : list Message) (r : outcome A * World) (k : nat) : Prop :=
  topic r.2 = (topic w ++ (published_of action <$> take k messages))%list
  ∧ fault r.2 = fault w
  ∧ match r.1 with
    | Ret _ => k = length messages
    | Raise e =>
        (k < length messages)%nat
        ∧ ∃ n nodegroup_id, fault w n (SnsPublish nodegroup_id) = Some e
    end.

Record counts := { clusters_count : Z; nodegroups_count : Z }.

Definition fan_out_operation (operation_id action : string)
  (clusters : list Cluster) (initiated_by : string) : M counts :=
  totals ← publish_clusters operation_id action initiated_by clusters 0 0;
  log INFO "Fan-out complete";;
  mret {| clusters_count := totals.1; nodegroups_count := totals.2 |}.

End OperationRouter.

(** ** The worker ([operations/task_worker.py]) *)

Module TaskWorker.
Import Aws.

(** The message as the worker reads it: every key is looked up with [.get]
    or tested with [in], so every key may be missing. *)
Record MessageDict := {
  md_operation_id : option string;
  md_action : option string;
  md_cluster_name : option string;
  md_account_id : option string;
  md_region : option string;
  md_nodegroup_name : option string;
  md_node_groups : option (list string);
  md_target_desired : option Z;
  md_target_min : option Z;
  md_target_max : option Z
}.

(** What the bus hands over for a message of the router. *)
Definition delivered (m : Message) : MessageDict :=
  {| md_operation_id := Some (m_operation_id m);
     md_action := Some (m_action m);
     md_cluster_name := Some (m_cluster_name m);
     md_account_id := Some (m_account_id m);
     md_region := Some (m_region m);
     md_nodegroup_name := Some (m_nodegroup_name m);
     md_node_groups := None;
     md_target_desired := m_target_desired m;
     md_target_min := m_target_min m;
     md_target_max := m_target_max m |}.

(** [ng[key]] on a dictionary that lacks the key. *)
Definition subscript {A} (key : string) (value : option A) : M A :=
  match value with
  | Some v => mret v
  | None => raise (OtherError "KeyError" ("'" ++ key ++ "'"))
  end.

(** The body of the inner [try]: the action on one node group. *)
Definition dispatch (message : MessageDict)
  (operation_id action account_id region cluster_name cluster_id : string)
  (ng : NodeGroup) : M unit :=
  let ng_id := cluster_id ++ ":" ++ ng_name ng in
  if String.eqb action "stop" then
    desired_size ← subscript "desired_size" (ng_desired_size ng);
    min_size ← subscript "min_size" (ng_min_size ng);
    max_size ← subscript "max_size" (ng_max_size ng);
    ClusterBaseline.save_baseline cluster_id (ng_name ng)
      desired_size min_size max_size;;
    EKSController.stop_nodegroup account_id region cluster_name (ng_name ng)
      (ng_asg_name ng);;
    StateManager.update_nodegroup_status operation_id ng_id "COMPLETED"
      None (Some 0)
  else if String.eqb action "start" then
    saved ← ClusterBaseline.get_baseline cluster_id (ng_name ng);
    sizes ← match saved with
            | None =>
                log WARNING ("No baseline found for " ++ ng_id
                             ++ ", using current min_size");;
                target_size ← subscript "min_size" (ng_min_size ng);
                min_size ← subscript "min_size" (ng_min_size ng);
                max_size ← subscript "max_size" (ng_max_size ng);
                mret (target_size, min_size, max_size)
            | Some saved =>
                mret (b_desired_size saved, b_min_size saved, b_max_size saved)
            end;
    let '(target_size, min_size, max_size) := sizes in
    EKSController.start_nodegroup account_id region cluster_name (ng_name ng)
      target_size min_size max_size (ng_asg_name ng);;
    StateManager.update_nodegroup_status operation_id ng_id "COMPLETED"
      None (Some target_size);;
    ClusterBaseline.delete_baseline cluster_id (ng_name ng)
  else if String.eqb action "scale" then
    EKSController.scale_nodegroup account_id region cluster_name (ng_name ng)
      (md_target_desired message) (md_target_min message)
      (md_target_max message) (ng_asg_name ng);;
    StateManager.update_nodegroup_status operation_id ng_id "COMPLETED"
      None (md_target_desired message)
  else mret tt.

(** The warning of the start path when no baseline is stored. *)
Definition no_baseline_warning (cluster_id : string) (ng : NodeGroup) : LogRecord :=
  {| l_level := WARNING;
     l_msg := "No baseline found for " ++ (cluster_id ++ ":" ++ ng_name ng)
              ++ ", using current min_size" |}.

(** The inner [except]: the failure is logged and recorded in the row. *)
Definition record_failure (operation_id ng_id : string) (e : exn) : M unit :=
  log ERROR "Failed to execute action on nodegroup";;
  StateManager.update_nodegroup_status operation_id ng_id "FAILED"
    (Some (str e)) None.

(** The body of the loop over the node groups of the target cluster. *)
Definition process_nodegroup (message : MessageDict)
  (operation_id action account_id region cluster_name cluster_id : string)
  (ng : NodeGroup) : M unit :=
  try_except
    (dispatch message operation_id action account_id region cluster_name
       cluster_id ng)
    any_exception
    (record_failure operation_id (cluster_id ++ ":" ++ ng_name ng)).

(** [logger.error(msg, extra={key: ...})] with a key that is an attribute
    of every log record: [Logger.makeRecord] raises a KeyError before any
    handler sees the record, so nothing is logged. [str] of a KeyError is
    the [repr] of its argument, here in double quotes. *)
Definition reserved_extra_key (key : string) : exn :=
  OtherError "KeyError"
    (String.String "034"
       ("Attempt to overwrite '" ++ key ++ "' in LogRecord"
        ++ String.String "034" "")).

(** The call that reports missing fields passes [extra={"message": message}],
    and [message] is such a key: the call raises, outside every [try] of the
    function, and the [return] after it is not reached. *)
Definition _process_message (message : MessageDict) : M unit :=
  if negb (forallb StateManager.truthy
             [md_operation_id message; md_action message;
              md_cluster_name message; md_account_id message;
              md_region message])
  then raise (reserved_extra_key "message")
  else
    let operation_id := default "" (md_operation_id message) in
    let action := default "" (md_action message) in
    let cluster_name := default "" (md_cluster_name message) in
    let account_id := default "" (md_account_id message) in
    let region := default "" (md_region message) in
    let cluster_id := account_id ++ ":" ++ region ++ ":" ++ cluster_name in
    log INFO "Processing operation";;
    try_except
      (discovered ← Discovery.discover_clusters None;
       let target_cluster :=
         head (filter (λ c, c_cluster_name c = cluster_name
                            ∧ c_region c = region
                            ∧ c_account_id c = account_id) discovered) in
       match target_cluster with
       | None =>
           log ERROR ("Cluster " ++ cluster_name
                      ++ " not found during processing in account " ++ account_id)
       | Some target_cluster =>
           let target_ng_names :=
             match md_nodegroup_name message, md_node_groups message with
             | Some name, _ => [name]
             | None, Some names => names
             | None, None => []
             end in
           for_each (c_node_groups target_cluster)
             (λ ng,
                if match target_ng_names with [] => false | _ => true end
                   && negb (bool_decide (ng_name ng ∈ target_ng_names))
                then mret tt
                else process_nodegroup message operation_id action account_id
                       region cluster_name cluster_id ng)
       end)
      any_exception
      (λ e, log ERROR "Fatal error in worker";; raise e).

(** An SQS record. [body] is the outcome of the two [json.loads] of the
    handler: a direct message, a message unwrapped from the envelope
    [{"Message": "<json>"}], or the exception the decoding raises. *)
Inductive decoded :=
  | Direct (message : MessageDict)
  | Envelope (message : MessageDict)
  | Undecodable (e : exn).

Record SqsRecord := { messageId : string; body : decoded }.

Record Event := { warm : bool; Records : list SqsRecord }.

Inductive response :=
  | Warmed
  | BatchItemFailures (batchItemFailures : list string).

Definition decode (record : SqsRecord) : M MessageDict :=
  match body record with
  | Direct message => mret message
  | Envelope message => mret message
  | Undecodable e => raise e
  end.

(** One turn of the loop over [event["Records"]]: the failures so far, and
    this record's id appended when its processing raises. *)
Definition process_record (record : SqsRecord)
  (batch_item_failures : list string) : M (list string) :=
  try_except
    (message ← decode record;
     _process_message message;;
     mret batch_item_failures)
    any_exception
    (λ e,
       log ERROR "Failed to process record";;
       mret (batch_item_failures ++ [messageId record])%list).

Definition raises {A} (o : outcome A) : bool :=
  match o with
  | Raise _ => true
  | Ret _ => false
  end.

(** The ids of the records of a batch whose decoding or processing raises,
    each record being processed in the world its predecessors left. *)
Fixpoint raising_records (records : list SqsRecord) (w : World) : list string :=
  match records with
  | [] => []
  | record :: rest =>
      (if raises ((decode record ≫= _process_message) w).1
       then [messageId record] else [])
      ++ raising_records rest (process_record record [] w).2
  end.

Fixpoint process_records (records : list SqsRecord)
  (batch_item_failures : list string) : M (list string) :=
  match records with
  | [] => mret batch_item_failures
  | record :: rest =>
      batch_item_failures ← process_record record batch_item_failures;
      process_records rest batch_item_failures
  end.

Definition handler (event : Event) : M response :=
  if warm event then
    log INFO "Worker warmed up";;
    mret Warmed
  else
    log INFO "Received event";;
    batch_item_failures ← process_records (Records event) [];
    mret (BatchItemFailures batch_item_failures).

End TaskWorker.

(** ** Cron triggers ([schedules/cron_utils.py]) *)

Module CronUtils.
Import Aws.

(** An aware [datetime]: the wall-clock fields, flattened to microseconds
    from a minute-aligned origin, and the [tzinfo]. The [fold] attribute is
    not modelled. *)
Inductive tzinfo := UTC | Zone (key : string).

#[export] Instance tzinfo_eq_dec : EqDecision tzinfo.
Proof. solve_decision. Defined.

Record datetime := { wall : Z; tz : tzinfo }.

Definition MICROSECOND : Z := 1.
Definition SECOND : Z := 1000000.
Definition MINUTE : Z := 60 * SECOND.

(** The two libraries the module calls: [croniter] for the schedule and
    [zoneinfo] for the time zones. [croniter_get_prev e start] is
    [croniter(e, start).get_prev(datetime)], which raises when the
    expression has no earlier match; [utcoffset] and [fromutc] are the two
    directions of a zone's rules, in microseconds. *)
Class Calendar := {
  croniter_is_valid : string → bool;
  croniter_get_prev : string → datetime → outcome datetime;
  ZoneInfo : string → outcome tzinfo;
  utcoffset : tzinfo → Z → Z;
  fromutc : tzinfo → Z → Z
}.

Section WithCalendar.
Context `{Calendar}.

Definition validate_cron (expression : string) : bool :=
  croniter_is_valid expression.

(** [dt.replace(second=0, microsecond=0)]. *)
Definition start_of_minute (dt : datetime) : datetime :=
  {| wall := wall dt - wall dt `mod` MINUTE; tz := tz dt |}.

(** [dt.astimezone(zone)]: the same instant on the wall clock of [zone]. *)
Definition astimezone (zone : tzinfo) (dt : datetime) : datetime :=
  {| wall := fromutc zone (wall dt - utcoffset (tz dt) (wall dt)); tz := zone |}.

(** [dt + timedelta(seconds=n)]: arithmetic on the wall clock. *)
Definition add_seconds (dt : datetime) (n : Z) : datetime :=
  {| wall := wall dt + n * SECOND; tz := tz dt |}.

(** [a == b] on aware datetimes: with one [tzinfo] the wall clocks are
    compared, with two the instants. *)
Definition datetime_eqb (a b : datetime) : bool :=
  if decide (tz a = tz b) then bool_decide (wall a = wall b)
  else bool_decide (wall a - utcoffset (tz a) (wall a)
                    = wall b - utcoffset (tz b) (wall b)).

(** [datetime.now(timezone.utc)]. *)
Definition utcnow : M datetime :=
  w ← get_world; mret {| wall := clock w * SECOND; tz := UTC |}.

Definition lift {A} (o : outcome A) : M A := λ w, (o, w).

Definition is_triggered (cron_expression tz_name : string)
  (check_time : option datetime) : M bool :=
  if negb (validate_cron cron_expression) then
    log WARNING "Invalid cron expression";;
    mret false
  else
    zone ← lift (ZoneInfo tz_name);
    now ← match check_time with
          | Some t => mret t
          | None => utcnow
          end;
    let reference_time := start_of_minute now in
    let local_ref := astimezone zone reference_time in
    prev_trigger ← lift (croniter_get_prev cron_expression
                           (add_seconds local_ref 1));
    mret (datetime_eqb prev_trigger local_ref).

End WithCalendar.

(** What [croniter] promises for a five-field expression, whose matches are
    the wall-clock minutes at which [fires] holds: [get_prev] is the latest
    match strictly before the start, on the start's [tzinfo]. *)
Definition croniter_spec `{Calendar} (fires : string → Z → Prop) : Prop :=
  (∀ e q, fires e q → q `mod` MINUTE = 0)
  ∧ ∀ e start p,
      croniter_get_prev e start = Ret p
      ↔ tz p = tz start
        ∧ fires e (wall p)
        ∧ wall p < wall start
        ∧ ∀ q, fires e q → q < wall start → q ≤ wall p.

(** A small calendar: UTC only, and the one expression that matches every
    minute. *)
Definition every_minute : Calendar := {|
  croniter_is_valid e := String.eqb e "* * * * *";
  croniter_get_prev e start :=
    Ret {| wall := MINUTE * ((wall start - 1) `div` MINUTE); tz := tz start |};
  ZoneInfo key :=
    if String.eqb key "UTC" then Ret UTC
    else Raise (OtherError "ZoneInfoNotFoundError"
                  ("No time zone found with key " ++ key));
  utcoffset _ _ := 0;
  fromutc _ utc := utc
|}.

Definition HOUR : Z := 60 * MINUTE.

(** A second small calendar: the expression that matches the start of every
    hour, UTC, and one zone that is five and a half hours ahead of UTC all
    year. *)
Definition hourly : Calendar := {|
  croniter_is_valid e := String.eqb e "0 * * * *";
  croniter_get_prev e start :=
    Ret {| wall := HOUR * ((wall start - 1) `div` HOUR); tz := tz start |};
  ZoneInfo key :=
    if String.eqb key "UTC" then Ret UTC
    else if String.eqb key "Asia/Kolkata" then Ret (Zone "Asia/Kolkata")
    else Raise (OtherError "ZoneInfoNotFoundError"
                  ("No time zone found with key " ++ key));
  utcoffset zone _ :=
    match zone with UTC => 0 | Zone _ => 19800 * SECOND end;
  fromutc zone utc :=
    utc + match zone with UTC => 0 | Zone _ => 19800 * SECOND end
|}.

End CronUtils.

(** ** Readings of the loops above, for the properties *)

Module Reading.
Import Aws.

(** The two tests of the loop body of [_discover_auto_scaling_groups] as one
    condition: the group is tagged for the cluster and is not tagged
    [eks-operator/skip = true]. *)
Definition selects (cluster_name : string) (asg : ASG) : bool :=
  let asg_tags := Py.dict_of_pairs (Tags asg) in
  Discovery.asg_of_cluster cluster_name asg_tags
  && negb (bool_decide (asg_tags !! "eks-operator/skip" = Some "true")).

(** The dictionary appended to [matching_asgs] for a group. *)
Definition described_asg (asg : ASG) : AsgInfo :=
  Discovery.asg_info asg (Py.dict_of_pairs (Tags asg)).

(** What [_describe_cluster] makes of a cluster of EKS. *)
Definition describes (account_id region : string) (ec : EksCluster)
  (c : Cluster) : Prop :=
  c_account_id c = account_id
  ∧ c_region c = region
  ∧ c_cluster_name c = ec_name ec
  ∧ c_cluster_arn c = ec_arn ec
  ∧ c_cluster_status c = ec_status ec
  ∧ c_kubernetes_version c = default "unknown" (ec_version ec)
  ∧ c_tags c = default [] (ec_tags ec).

(** A cluster dictionary that the loop of [_discover_account_clusters] can
    append for an account and region with the clusters [clusters] and the
    groups [groups]: it describes one of the clusters, it passed the
    production guard and the label filter, and its node groups are the
    groups selected for it, or none when their listing failed. *)
Definition discovered (clusters : list EksCluster) (groups : list ASG)
  (label_filter : option Py.dict) (account_id region : string) (c : Cluster)
  : Prop :=
  (∃ ec, ec ∈ clusters ∧ describes account_id region ec c)
  ∧ Discovery.is_production (c_tags c) = false
  ∧ (∀ lf, label_filter = Some lf → Discovery._matches_labels (c_tags c) lf = true)
  ∧ c_node_groups c = Discovery.node_group_of <$> c_auto_scaling_groups c
  ∧ (c_auto_scaling_groups c = []
     ∨ c_auto_scaling_groups c
       = described_asg <$> filter (λ g, selects (c_cluster_name c) g) groups).

End Reading.

(** ** Sample worlds for the examples *)

Module Sample.
Import Aws.

Definition sample_settings : Settings :=
  {| management_account_id := "000000000000";
     target_account_ids := "111111111111";
     operator_role_name := "eks-operator-spoke";
     aws_region := "us-east-1";
     target_regions := "" |}.

(** An empty fleet at time 1000 in which every request is answered. *)
Definition quiet : World :=
  {| settings := sample_settings;
     clock := 1000;
     fault := λ _ _, None;
     ticks := 0;
     org_accounts := [];
     eks := ∅;
     autoscaling := ∅;
     operations_table := ∅;
     cluster_state_table := ∅;
     topic := [];
     logs := [] |}.

Definition account : string := "111111111111".
Definition region : string := "us-east-1".

Definition asg (name cluster nodegroup : string) (desired min_size max_size : Z)
  : ASG :=
  {| AutoScalingGroupName := name;
     AutoScalingGroupARN := "arn:aws:autoscaling:" ++ name;
     DesiredCapacity := desired;
     MinSize := min_size;
     MaxSize := max_size;
     Tags := [("eks:cluster-name", cluster); ("eks:nodegroup-name", nodegroup)];
     MixedInstancesPolicy_ := None;
     LaunchTemplate := true;
     LaunchConfigurationName := None;
     Instances := Z.to_nat desired |}.

Definition eks_cluster (name : string) (tags : Py.dict) : EksCluster :=
  {| ec_name := name;
     ec_arn := "arn:aws:eks:" ++ name;
     ec_status := "ACTIVE";
     ec_version := Some "1.29";
     ec_tags := Some tags |}.

(** One account and region with three clusters. [dev] has two node groups;
    [shop] carries two environment tags, the first of which says [dev];
    [live] is tagged as production. *)
Definition fleet : World :=
  {| settings := sample_settings;
     clock := 1000;
     fault := λ _ _, None;
     ticks := 0;
     org_accounts := [];
     eks := {[ (account, region) :=
                 [ eks_cluster "dev" [("Environment", "dev"); ("auto_stop", "true")];
                   eks_cluster "shop" [("env", "dev"); ("Environment", "production")];
                   eks_cluster "live" [("Environment", "Production")] ] ]};
     autoscaling := {[ (account, region) :=
                         [ asg "eks-dev-workers" "dev" "workers" 3 1 5;
                           asg "eks-dev-batch" "dev" "batch" 2 0 4;
                           asg "eks-shop-web" "shop" "web" 6 2 8 ] ]};
     operations_table := ∅;
     cluster_state_table := ∅;
     topic := [];
     logs := [] |}.

(** The node group [workers] of [dev] as discovery reports it, and a
    message of the router for it. *)
Definition workers : NodeGroup :=
  let g := asg "eks-dev-workers" "dev" "workers" 3 1 5 in
  Discovery.node_group_of (Discovery.asg_info g (Py.dict_of_pairs (Tags g))).

Definition dev_id : string := account ++ ":" ++ region ++ ":dev".

Definition message (action nodegroup : string) : TaskWorker.MessageDict :=
  {| TaskWorker.md_operation_id := Some "op-1";
     TaskWorker.md_action := Some action;
     TaskWorker.md_cluster_name := Some "dev";
     TaskWorker.md_account_id := Some account;
     TaskWorker.md_region := Some region;
     TaskWorker.md_nodegroup_name := Some nodegroup;
     TaskWorker.md_node_groups := None;
     TaskWorker.md_target_desired := None;
     TaskWorker.md_target_min := None;
     TaskWorker.md_target_max := None |}.

(** Name and sizes (desired, min, max) of the groups of the sample account. *)
Definition sizes (w : World) : list (string * Z * Z * Z) :=
  (λ g, (AutoScalingGroupName g, DesiredCapacity g, MinSize g, MaxSize g))
  <$> EKSController.groups account region w.

(** The cluster [dev] as discovery reports it, the fleet after an operation
    on it was seeded, and a batch with one record per node group. *)
Definition dev_cluster : list Cluster :=
  match (Discovery.discover_clusters None fleet).1 with
  | Ret clusters => filter (λ c, c_cluster_name c = "dev") clusters
  | Raise _ => []
  end.

Definition seeded (action : string) : World :=
  (StateManager.create_operation "op-1" action "operator" dev_cluster None
     fleet).2.

Definition batch (action : string) : TaskWorker.Event :=
  {| TaskWorker.warm := false;
     TaskWorker.Records :=
       [ {| TaskWorker.messageId := "m-1";
            TaskWorker.body := TaskWorker.Envelope (message action "workers") |};
         {| TaskWorker.messageId := "m-2";
            TaskWorker.body := TaskWorker.Envelope (message action "batch") |} ] |}.

(** Status and error message of the rows of the operations table. *)
Definition rows (w : World) : list (string * string * option attr) :=
  (λ kv, (kv.1.2, StateManager.status_of kv.2, kv.2 !! "error_message"))
  <$> map_to_list (operations_table w).

(** The same world with another oracle. *)
Definition with_fault (f : nat → Request → option exn) (w : World) : World :=
  {| settings := settings w; clock := clock w; fault := f; ticks := ticks w;
     org_accounts := org_accounts w; eks := eks w;
     autoscaling := autoscaling w; operations_table := operations_table w;
     cluster_state_table := cluster_state_table w; topic := topic w;
     logs := logs w |}.

(** The seeded fleet in which the resize of the group [eks-dev-batch] cannot
    reach the service. *)
Definition batch_unreachable : World :=
  with_fault
    (λ _ r, match r with
            | AsgUpdate _ _ "eks-dev-batch" =>
                Some (OtherError "EndpointConnectionError"
                        "Could not connect to the endpoint URL")
            | _ => None
            end)
    (seeded "stop").

(** The fleet in which the topic refuses the message for [workers]. *)
Definition topic_refuses_workers : World :=
  with_fault
    (λ _ r, match r with
            | SnsPublish "111111111111:us-east-1:dev:workers" =>
                Some (ClientError "InternalError" "Publish" "Internal failure")
            | _ => None
            end)
    fleet.

(** The seeded fleet after the worker stopped [workers], which saved its
    baseline, and the same fleet in which the baseline table refuses every
    deletion. *)
Definition stopped : World :=
  (TaskWorker._process_message (message "stop" "workers") (seeded "stop")).2.

Definition deletion_refused : World :=
  with_fault
    (λ _ r, match r with
            | DdbDeleteItem ClusterState _ =>
                Some (ClientError "InternalServerError" "DeleteItem"
                        "Internal server error")
            | _ => None
            end)
    stopped.

(** The seeded fleet in which the resize of [eks-dev-batch] cannot reach the
    service and the table refuses every update of the row of [batch]. *)
Definition batch_unrecorded : World :=
  with_fault
    (λ _ r, match r with
            | AsgUpdate _ _ "eks-dev-batch" =>
                Some (OtherError "EndpointConnectionError"
                        "Could not connect to the endpoint URL")
            | DdbUpdateItem Operations (_, "NG#111111111111:us-east-1:dev:batch") =>
                Some (ClientError "ProvisionedThroughputExceededException"
                        "UpdateItem" "The request rate is too high")
            | _ => None
            end)
    (seeded "stop").

(** A batch whose first record does not hold JSON. *)
Definition garbled : TaskWorker.Event :=
  {| TaskWorker.warm := false;
     TaskWorker.Records :=
       [ {| TaskWorker.messageId := "m-0";
            TaskWorker.body :=
              TaskWorker.Undecodable
                (OtherError "JSONDecodeError"
                   "Expecting value: line 1 column 1 (char 0)") |};
         {| TaskWorker.messageId := "m-1";
            TaskWorker.body := TaskWorker.Envelope (message "stop" "workers") |} ] |}.


(** A batch whose only message names no operation. *)
Definition unaddressed : TaskWorker.Event :=
  {| TaskWorker.warm := false;
     TaskWorker.Records :=
       [ {| TaskWorker.messageId := "m-9";
            TaskWorker.body :=
              TaskWorker.Direct
                {| TaskWorker.md_operation_id := None;
                   TaskWorker.md_action := Some "stop";
                   TaskWorker.md_cluster_name := Some "dev";
                   TaskWorker.md_account_id := Some account;
                   TaskWorker.md_region := Some region;
                   TaskWorker.md_nodegroup_name := Some "workers";
                   TaskWorker.md_node_groups := None;
                   TaskWorker.md_target_desired := None;
                   TaskWorker.md_target_min := None;
                   TaskWorker.md_target_max := None |} |} ] |}.




End Sample.

(** * Properties *)

(** ** Running the monad *)

Module MonadFacts.
Import Aws.

(** A run of [m ≫= f] that returns went through a run of [m] that
    returned. *)
Lemma bind_ret_inv {A B} (m : M A) (f : A → M B) w b w' :
  (m ≫= f) w = (Ret b, w') →
  ∃ a w1, m w = (Ret a, w1) ∧ f a w1 = (Ret b, w').
Proof.
  unfold mbind, M_bind. destruct (m w) as [[a | e] w1]; [eauto | done].
Qed.

Lemma bind_ret_step {A B} (m : M A) (f : A → M B) w a w1 :
  m w = (Ret a, w1) → (m ≫= f) w = f a w1.
Proof. unfold mbind, M_bind. by intros ->. Qed.

Lemma bind_raise_step {A B} (m : M A) (f : A → M B) w e w1 :
  m w = (Raise e, w1) → (m ≫= f) w = (Raise e, w1).
Proof. unfold mbind, M_bind. by intros ->. Qed.

Lemma try_ret_step {A} (body : M A) catches handler w a w1 :
  body w = (Ret a, w1) → try_except body catches handler w = (Ret a, w1).
Proof. unfold try_except. by intros ->. Qed.

Lemma try_caught_step {A} (body : M A) catches handler w e w1 :
  body w = (Raise e, w1) → catches e = true →
  try_except body catches handler w = handler e w1.
Proof. unfold try_except. by intros -> ->. Qed.


Lemma try_ret_inv {A} (body : M A) catches handler w a w' :
  try_except body catches handler w = (Ret a, w') →
  body w = (Ret a, w')
  ∨ ∃ e w1, body w = (Raise e, w1) ∧ catches e = true
            ∧ handler e w1 = (Ret a, w').
Proof.
  unfold try_except. destruct (body w) as [[a' | e] w1]; [by left |].
  destruct (catches e) eqn:Hc; [| done]. right. eauto.
Qed.

Lemma request_ret_inv {A} (r : Request) (service : M A) w a w' :
  request r service w = (Ret a, w') →
  fault w (ticks w) r = None
  ∧ service (set_ticks (S (ticks w)) w) = (Ret a, w').
Proof. unfold request. by destruct (fault w (ticks w) r). Qed.

Lemma request_answered {A} (r : Request) (service : M A) w :
  fault w (ticks w) r = None →
  request r service w = service (set_ticks (S (ticks w)) w).
Proof. unfold request. by intros ->. Qed.

Lemma request_failed {A} (r : Request) (service : M A) w e :
  fault w (ticks w) r = Some e →
  request r service w = (Raise e, set_ticks (S (ticks w)) w).
Proof. unfold request. by intros ->. Qed.

(** *** Parts of the world a computation leaves alone *)

#[export] Instance same_preorder {T} (proj : World → T) : PreOrder (same proj).
Proof.
  split; [by intros w |]. intros w1 w2 w3 H12 H23. unfold same in *. congruence.
Qed.

#[export] Instance more_logs_preorder : PreOrder more_logs.
Proof.
  split; [intros w; unfold more_logs; reflexivity |].
  intros w1 w2 w3 H12 H23. unfold more_logs in *. by etrans.
Qed.

Section Along.
Context (R : relation World) `{!PreOrder R}.

Lemma along_run {A} (m : M A) w o w' : along R m → m w = (o, w') → R w w'.
Proof. intros Hk Hrun. specialize (Hk w). by rewrite Hrun in Hk. Qed.

Lemma along_ret {A} (a : A) : along R (mret a).
Proof. by intros w. Qed.

Lemma along_raise {A} e : along R (@raise A e).
Proof. by intros w. Qed.

Lemma along_get_world : along R get_world.
Proof. by intros w. Qed.

Lemma along_bind {A B} (m : M A) (f : A → M B) :
  along R m → (∀ a, along R (f a)) → along R (m ≫= f).
Proof.
  intros Hm Hf w. unfold mbind, M_bind. specialize (Hm w).
  destruct (m w) as [[a | e] w1]; simpl in *; [| done].
  etrans; [exact Hm | apply Hf].
Qed.

Lemma along_try_except {A} (body : M A) catches handler :
  along R body → (∀ e, along R (handler e)) →
  along R (try_except body catches handler).
Proof.
  intros Hb Hh w. unfold try_except. specialize (Hb w).
  destruct (body w) as [[a | e] w1]; simpl in *; [done |].
  destruct (catches e); [| done]. etrans; [exact Hb | apply Hh].
Qed.

Lemma along_modify (f : World → World) :
  (∀ w, R w (f w)) → along R (modify f).
Proof. intros Hf w. apply Hf. Qed.

Lemma along_log lv msg :
  (∀ l w, R w (set_logs (logs w ++ l) w)) → along R (log lv msg).
Proof. intros Hl w. apply Hl. Qed.

Lemma along_request {A} (r : Request) (service : M A) :
  (∀ n w, R w (set_ticks n w)) →
  along R service → along R (request r service).
Proof.
  intros Ht Hs w. unfold request.
  destruct (fault w (ticks w) r); simpl; [apply Ht |].
  etrans; [apply (Ht (S (ticks w))) | apply Hs].
Qed.

Lemma along_for_each {A} (xs : list A) (body : A → M unit) :
  (∀ x, along R (body x)) → along R (for_each xs body).
Proof.
  intros Hb. induction xs as [| x xs IH]; simpl.
  - apply along_ret.
  - apply along_bind; [apply Hb | by intros _].
Qed.

(** The world after [m ≫= f] when [m] returns and [f] respects [R]. *)
Lemma along_after {A B} (m : M A) (f : A → M B) w a w1 :
  m w = (Ret a, w1) → along R (f a) → R w1 ((m ≫= f) w).2.
Proof. intros Hm Hf. rewrite (bind_ret_step _ _ _ _ _ Hm). apply Hf. Qed.

(** The world after a [try] whose handlers respect [R]. *)
Lemma along_handlers {A} (body : M A) catches handler w :
  (∀ e, along R (handler e)) →
  R (body w).2 (try_except body catches handler w).2.
Proof.
  intros Hh. unfold try_except.
  destruct (body w) as [[a | e] w1]; simpl; [done |].
  destruct (catches e); [apply Hh | done].
Qed.

End Along.

(** *** Computations that return *)

Section Returns.
Context (P : World → Prop).

Lemma returns_ret {A} (a : A) : returns_under P (mret a).
Proof. intros w HP. by exists a, w. Qed.

Lemma returns_get_world : returns_under P get_world.
Proof. intros w HP. by exists w, w. Qed.

Lemma returns_bind {A B} (m : M A) (f : A → M B) :
  returns_under P m → (∀ a, returns_under P (f a)) → returns_under P (m ≫= f).
Proof.
  intros Hm Hf w HP. destruct (Hm w HP) as (a & w1 & Hrun & HP1).
  rewrite (bind_ret_step _ _ _ _ _ Hrun). by apply Hf.
Qed.

Lemma returns_modify (f : World → World) :
  (∀ w, P w → P (f w)) → returns_under P (modify f).
Proof. intros Hf w HP. exists tt, (f w). split; [done | by apply Hf]. Qed.

Lemma returns_log lv msg :
  (∀ l w, P w → P (set_logs l w)) → returns_under P (log lv msg).
Proof. intros Hl. apply returns_modify. intros w. apply Hl. Qed.

Lemma returns_request {A} (r : Request) (service : M A) :
  (∀ w, P w → fault w (ticks w) r = None) →
  (∀ n w, P w → P (set_ticks n w)) →
  returns_under P service → returns_under P (request r service).
Proof.
  intros Hf Ht Hs w HP. rewrite request_answered by auto.
  apply Hs. by apply Ht.
Qed.

End Returns.

(** Side conditions on the setters, for [same] of a concrete field, for
    [more_logs], or from the hypotheses at hand. *)
Ltac setter_inert :=
  solve [ intros; first
            [ reflexivity
            | unfold same; simpl; reflexivity
            | unfold more_logs; simpl; first [reflexivity | by apply prefix_app_r]
            | match goal with
              | H : Inert ?R |- ?R _ (set_ticks _ _) => apply (@inert_ticks R H)
              | H : Inert ?R |- ?R _ (set_clock _ _) => apply (@inert_clock R H)
              | H : Inert ?R |- ?R _ (set_logs _ _) => apply (@inert_logs R H)
              end
            | progress auto ] ].

(** Takes a goal [along R m] apart along the structure of [m]; what is left
    are the calls of [m] that are not primitives of the monad. *)
Ltac along_side :=
  lazymatch goal with
  | |- PreOrder _ => tc_solve
  | |- Inert _ => tc_solve
  | |- along _ _ => idtac
  | |- ∀ _, along _ _ => intros ?
  | |- _ => setter_inert
  end.

Ltac along_step :=
  lazymatch goal with
  | |- along _ (mret _) => apply along_ret; along_side
  | |- along _ (raise _) => apply along_raise; along_side
  | |- along _ get_world => apply along_get_world; along_side
  | |- along _ (log _ _) => apply along_log; along_side
  | |- along _ (modify _) => apply along_modify; along_side
  | |- along _ (mbind _ _) => apply along_bind; along_side
  | |- along _ (try_except _ _ _) => apply along_try_except; along_side
  | |- along _ (request _ _) => apply along_request; along_side
  | |- along _ (for_each _ _) => apply along_for_each; along_side
  | |- along _ (if ?b then _ else _) => destruct b
  | |- along _ (match ?x with _ => _ end) => destruct x
  | |- along _ (let _ := _ in _) => cbv zeta
  end.

Ltac along_tac := repeat along_step.

#[export] Hint Extern 1 (Inert _) => (split; setter_inert) : typeclass_instances.

End MonadFacts.

(** ** Python helpers on sample inputs *)

Module PyExamples.
Import Py.

Example lower_mixed : lower "Environment" = "environment".
Proof. reflexivity. Qed.

Example contains_infix : contains "workers" "eks-workers-a1" = true.
Proof. reflexivity. Qed.

Example split_ng_id :
  split ":" "111:us-east-1:dev:workers" = ["111"; "us-east-1"; "dev"; "workers"].
Proof. reflexivity. Qed.

Example csv_regions : csv "us-east-1, eu-west-1 ,," = ["us-east-1"; "eu-west-1"].
Proof. reflexivity. Qed.

End PyExamples.

(** ** Status derivation *)

Module DeriveProps.
Import StateManager.

Example derive_S4 :
  _derive_status ["COMPLETED"; "FAILED"; "COMPLETED"] = "PARTIAL_FAILURE".
Proof. vm_compute. reflexivity. Qed.

Example derive_pending :
  _derive_status ["COMPLETED"; "PENDING"; "FAILED"] = "IN_PROGRESS".
Proof. vm_compute. reflexivity. Qed.

(** Elementary facts used by the rules below. *)
Lemma status_set_elem (S : list string) (s : string) :
  s ∈ (list_to_set S : gset string) ↔ s ∈ S.
Proof. apply elem_of_list_to_set. Qed.

Lemma status_set_empty (S : list string) :
  (list_to_set S : gset string) = ∅ ↔ S = [].
Proof.
  split; [| intros ->; reflexivity].
  destruct S as [| s S]; [reflexivity |].
  intros H. assert (Hs : s ∈ (list_to_set (s :: S) : gset string))
    by (apply status_set_elem; left).
  rewrite H in Hs. by apply not_elem_of_empty in Hs.
Qed.

Lemma status_set_singleton (S : list string) (c : string) :
  (list_to_set S : gset string) = {[c]} ↔ S ≠ [] ∧ ∀ s, s ∈ S → s = c.
Proof.
  split.
  - intros H. split.
    + intros ->. simpl in H. symmetry in H. by apply non_empty_singleton_L in H.
    + intros s Hs. apply status_set_elem in Hs. rewrite H in Hs.
      by apply elem_of_singleton in Hs.
  - intros [Hne Hall]. apply set_eq. intros s.
    rewrite status_set_elem, elem_of_singleton. split; [apply Hall |].
    intros ->. destruct S as [| s' S]; [done |].
    rewrite (Hall s') by left. left.
Qed.

Lemma status_set_inhabited (S : list string) (s : string) :
  s ∈ S → (list_to_set S : gset string) ≠ ∅.
Proof. rewrite status_set_empty. by intros Hs ->; inversion Hs. Qed.

Lemma status_set_not_singleton (S : list string) (s c : string) :
  s ∈ S → s ≠ c → (list_to_set S : gset string) ≠ {[c]}.
Proof.
  intros Hs Hne. rewrite status_set_singleton. intros [_ Hall]. auto.
Qed.

(** The six rules, each read on its own, for an arbitrary list of strings. *)
Lemma derive_empty : _derive_status [] = "UNKNOWN".
Proof. reflexivity. Qed.

Lemma derive_all_completed (S : list string) :
  (list_to_set S : gset string) = {["COMPLETED"]} →
  _derive_status S = "COMPLETED".
Proof.
  intros H. unfold _derive_status.
  assert (Hc : "COMPLETED" ∈ S) by (rewrite <- status_set_elem, H; by apply elem_of_singleton).
  rewrite decide_False by (by eapply status_set_inhabited).
  by rewrite decide_True.
Qed.

Lemma derive_all_failed (S : list string) :
  (list_to_set S : gset string) = {["FAILED"]} →
  _derive_status S = "FAILED".
Proof.
  intros H. unfold _derive_status.
  assert (Hf : "FAILED" ∈ S) by (rewrite <- status_set_elem, H; by apply elem_of_singleton).
  rewrite decide_False by (by eapply status_set_inhabited).
  rewrite decide_False by (by eapply status_set_not_singleton).
  by rewrite decide_True.
Qed.

Lemma derive_unfinished (S : list string) :
  "PENDING" ∈ S ∨ "IN_PROGRESS" ∈ S → _derive_status S = "IN_PROGRESS".
Proof.
  intros H. unfold _derive_status.
  assert (∃ s, s ∈ S ∧ s ≠ "COMPLETED" ∧ s ≠ "FAILED") as (s & Hs & HsC & HsF)
    by (destruct H; eexists; (split; [eassumption | done])).
  rewrite decide_False by (by eapply status_set_inhabited).
  rewrite decide_False by (by eapply status_set_not_singleton).
  rewrite decide_False by (by eapply status_set_not_singleton).
  rewrite <- !status_set_elem in H. destruct H as [Hp | Hp].
  - by rewrite (bool_decide_eq_true_2 _ Hp).
  - rewrite (bool_decide_eq_true_2 _ Hp). by rewrite orb_true_r.
Qed.

Lemma derive_mixed (S : list string) :
  "COMPLETED" ∈ S → "FAILED" ∈ S →
  (∀ s, s ∈ S → s = "COMPLETED" ∨ s = "FAILED") →
  _derive_status S = "PARTIAL_FAILURE".
Proof.
  intros Hc Hf Hall. unfold _derive_status.
  rewrite decide_False by (by eapply status_set_inhabited).
  rewrite decide_False by (by eapply (status_set_not_singleton _ "FAILED")).
  rewrite decide_False by (by eapply (status_set_not_singleton _ "COMPLETED")).
  assert (Hnp : "PENDING" ∉ (list_to_set S : gset string))
    by (rewrite status_set_elem; intros [E | E]%Hall; discriminate E).
  assert (Hni : "IN_PROGRESS" ∉ (list_to_set S : gset string))
    by (rewrite status_set_elem; intros [E | E]%Hall; discriminate E).
  apply status_set_elem in Hc, Hf.
  rewrite (bool_decide_eq_false_2 _ Hnp), (bool_decide_eq_false_2 _ Hni).
  by rewrite (bool_decide_eq_true_2 _ Hc), (bool_decide_eq_true_2 _ Hf).
Qed.

(** Over the four child statuses a list without PENDING and IN_PROGRESS
    holds only COMPLETED and FAILED. *)
Lemma finished_only (S : list string) :
  Forall (λ s, s ∈ child_statuses) S →
  ¬ ("PENDING" ∈ S ∨ "IN_PROGRESS" ∈ S) →
  ∀ s, s ∈ S → s = "COMPLETED" ∨ s = "FAILED".
Proof.
  intros Hdom Hu s Hs.
  rewrite Forall_forall in Hdom. specialize (Hdom s Hs).
  unfold child_statuses in Hdom.
  repeat (apply elem_of_cons in Hdom as [-> | Hdom]); auto.
  - exfalso. apply Hu. by left.
  - exfalso. apply Hu. by right.
  - by apply elem_of_nil in Hdom.
Qed.

Lemma derive_otherwise (S : list string) :
  Forall (λ s, s ∈ child_statuses) S →
  S ≠ [] →
  (list_to_set S : gset string) ≠ {["COMPLETED"]} →
  (list_to_set S : gset string) ≠ {["FAILED"]} →
  ¬ ("PENDING" ∈ S ∨ "IN_PROGRESS" ∈ S) →
  ¬ ("COMPLETED" ∈ S ∧ "FAILED" ∈ S
     ∧ ∀ s, s ∈ S → s = "COMPLETED" ∨ s = "FAILED") →
  _derive_status S = "IN_PROGRESS".
Proof.
  intros Hdom Hne Hc Hf Hu Hm. unfold _derive_status.
  rewrite decide_False by (by intros E%status_set_empty).
  rewrite decide_False by done. rewrite decide_False by done.
  destruct (bool_decide _ || bool_decide _); [done |].
  destruct (bool_decide _ && bool_decide _) eqn:E; [| done].
  exfalso. apply andb_true_iff in E as [E1 E2].
  apply bool_decide_eq_true_1, status_set_elem in E1, E2.
  apply Hm. split_and!; [done | done |]. by apply finished_only.
Qed.

(** Outside the four child statuses the last rule is not the code's: a row
    with a missing status is read as the empty string, and then a mix of
    COMPLETED and FAILED still yields PARTIAL_FAILURE. *)
Example derive_foreign_status :
  _derive_status ["COMPLETED"; "FAILED"; ""] = "PARTIAL_FAILURE".
Proof. vm_compute. reflexivity. Qed.

(** C1. For every list [S] of child statuses over PENDING, IN_PROGRESS,
    COMPLETED and FAILED, the derived status is UNKNOWN when [S] is empty,
    COMPLETED when the set of statuses is exactly {COMPLETED}, FAILED when it
    is exactly {FAILED}, IN_PROGRESS when [S] contains PENDING or IN_PROGRESS,
    PARTIAL_FAILURE when [S] contains both COMPLETED and FAILED and nothing
    else, and IN_PROGRESS in every remaining case. *)
Theorem derive_status_rules (S : list string) :
  Forall (λ s, s ∈ child_statuses) S →
  (S = [] → _derive_status S = "UNKNOWN")
  ∧ ((list_to_set S : gset string) = {["COMPLETED"]} →
     _derive_status S = "COMPLETED")
  ∧ ((list_to_set S : gset string) = {["FAILED"]} →
     _derive_status S = "FAILED")
  ∧ ("PENDING" ∈ S ∨ "IN_PROGRESS" ∈ S → _derive_status S = "IN_PROGRESS")
  ∧ ("COMPLETED" ∈ S ∧ "FAILED" ∈ S
     ∧ (∀ s, s ∈ S → s = "COMPLETED" ∨ s = "FAILED") →
     _derive_status S = "PARTIAL_FAILURE")
  ∧ (S ≠ [] →
     (list_to_set S : gset string) ≠ {["COMPLETED"]} →
     (list_to_set S : gset string) ≠ {["FAILED"]} →
     ¬ ("PENDING" ∈ S ∨ "IN_PROGRESS" ∈ S) →
     ¬ ("COMPLETED" ∈ S ∧ "FAILED" ∈ S
        ∧ ∀ s, s ∈ S → s = "COMPLETED" ∨ s = "FAILED") →
     _derive_status S = "IN_PROGRESS").
Proof.
  intros Hdom. split_and!.
  - intros ->. apply derive_empty.
  - apply derive_all_completed.
  - apply derive_all_failed.
  - apply derive_unfinished.
  - intros (Hc & Hf & Hall). by apply derive_mixed.
  - by apply derive_otherwise.
Qed.

Lemma derive_status_rules_witness :
  Forall (λ s, s ∈ child_statuses) ["COMPLETED"; "FAILED"; "COMPLETED"]
  ∧ _derive_status ["COMPLETED"; "FAILED"; "COMPLETED"] = "PARTIAL_FAILURE".
Proof.
  assert (Hdom : Forall (λ s, s ∈ child_statuses)
                   ["COMPLETED"; "FAILED"; "COMPLETED"]).
  { repeat constructor. }
  split; [exact Hdom |].
  apply (derive_status_rules _ Hdom). split_and!.
  - repeat constructor.
  - repeat constructor.
  - intros s Hs. repeat (apply elem_of_cons in Hs as [-> | Hs]); auto.
    by apply elem_of_nil in Hs.
Defined.

End DeriveProps.

(** ** What the state manager changes *)

Module StateManagerFacts.
Import Aws StateManager MonadFacts.

Lemma update_item_along (R : relation World) `{!PreOrder R} key actions :
  (∀ it w, R w (set_operations_table (<[key := it]> (operations_table w)) w)) →
  along R (update_item key actions).
Proof.
  intros Hins w. unfold update_item.
  destruct (foldl _ _ _); simpl; [apply Hins | done].
Qed.

Lemma query_along (R : relation World) `{!PreOrder R} pk prefix :
  along R (query pk prefix).
Proof. unfold query. along_tac. Qed.

Section Frames.
Context (R : relation World) `{!PreOrder R, !Inert R}.

Lemma _update_cluster_status_along operation_id cluster_id :
  (∀ it w, R w (set_operations_table
                  (<[("OP#" ++ operation_id, "CLUSTER#" ++ cluster_id) := it]>
                     (operations_table w)) w)) →
  along R (_update_cluster_status operation_id cluster_id).
Proof.
  intros Hins. unfold _update_cluster_status, get_cluster_nodegroups.
  along_tac; first [by apply query_along | by apply update_item_along].
Qed.

Lemma _update_meta_status_along operation_id :
  (∀ it w, R w (set_operations_table
                  (<[("OP#" ++ operation_id, "META") := it]>
                     (operations_table w)) w)) →
  along R (_update_meta_status operation_id).
Proof.
  intros Hins. unfold _update_meta_status, get_operation_clusters.
  along_tac; first [by apply query_along | by apply update_item_along].
Qed.

Lemma update_nodegroup_status_along operation_id ng_id status err desired :
  (∀ key it w, R w (set_operations_table (<[key := it]> (operations_table w)) w)) →
  along R (update_nodegroup_status operation_id ng_id status err desired).
Proof.
  intros Hins. unfold update_nodegroup_status.
  along_tac;
    first [ by apply update_item_along
          | by apply _update_cluster_status_along
          | by apply _update_meta_status_along ].
Qed.

End Frames.

(** An update made of plain assignments is always valid. *)
Lemma update_item_assignments key actions w :
  Forall (λ a, match a with SetValue _ _ => True | _ => False end) actions →
  ∃ new, update_item key actions w
         = (Ret tt, set_operations_table (<[key := new]> (operations_table w)) w).
Proof.
  intros Hsets. unfold update_item.
  assert (∀ acc, ∃ new,
            foldl (apply_set (default (key_item key) (operations_table w !! key)))
              (Some acc) actions = Some new) as Hfold.
  { induction Hsets as [| a actions Ha _ IH]; intros acc; simpl; [by eexists |].
    destruct a; [apply IH | done]. }
  destruct (Hfold (default (key_item key) (operations_table w !! key)))
    as [new ->].
  by exists new.
Qed.

Lemma update_item_returns key actions :
  Forall (λ a, match a with SetValue _ _ => True | _ => False end) actions →
  returns_under operations_answer (update_item key actions).
Proof.
  intros Hsets w HP. destruct (update_item_assignments key actions w Hsets)
    as [new ->]. by eexists _, _.
Qed.

Lemma query_returns pk prefix : returns_under operations_answer (query pk prefix).
Proof.
  unfold query. apply returns_bind; [apply returns_get_world |].
  intros w. apply returns_ret.
Qed.

Lemma _update_cluster_status_returns operation_id cluster_id :
  returns_under operations_answer (_update_cluster_status operation_id cluster_id).
Proof.
  unfold _update_cluster_status, get_cluster_nodegroups.
  apply returns_bind.
  - apply returns_request; [by intros w [_ H] | done | apply query_returns].
  - intros ngs. apply returns_bind; [apply returns_get_world |]. intros w.
    apply returns_request; [by intros w' [H _] | done |].
    apply update_item_returns. by repeat constructor.
Qed.

Lemma _update_meta_status_returns operation_id :
  returns_under operations_answer (_update_meta_status operation_id).
Proof.
  unfold _update_meta_status, get_operation_clusters.
  apply returns_bind.
  - apply returns_request; [by intros w [_ H] | done | apply query_returns].
  - intros ngs. apply returns_bind; [apply returns_get_world |]. intros w.
    apply returns_request; [by intros w' [H _] | done |].
    apply update_item_returns. by repeat constructor.
Qed.

(** Recording a status other than FAILED cannot fail when the table
    answers: the patch and the two propagations are plain assignments. *)
Lemma update_nodegroup_status_returns operation_id ng_id status err desired :
  status ≠ "FAILED" →
  returns_under operations_answer
    (update_nodegroup_status operation_id ng_id status err desired).
Proof.
  intros Hst.
  assert (Hs : String.eqb status "FAILED" = false) by (by apply String.eqb_neq).
  unfold update_nodegroup_status. rewrite Hs.
  apply returns_bind; [apply returns_get_world |]. intros w.
  apply returns_bind.
  - apply returns_request; [by intros w' [H _] | done |].
    apply update_item_returns.
    destruct (truthy err), desired; by repeat constructor.
  - intros _. apply returns_bind.
    + apply _update_cluster_status_returns.
    + intros _. apply _update_meta_status_returns.
Qed.

Lemma update_item_ret_inv key actions w w' :
  update_item key actions w = (Ret tt, w') →
  ∃ new,
    foldl (apply_set (default (key_item key) (operations_table w !! key)))
      (Some (default (key_item key) (operations_table w !! key))) actions
    = Some new
    ∧ w' = set_operations_table (<[key := new]> (operations_table w)) w.
Proof.
  unfold update_item. destruct (foldl _ _ _) as [new |]; [| done].
  intros [= <-]. by exists new.
Qed.

(** The key of a node group row is the key of no cluster row and not the
    key of the META row. *)
Lemma ng_key_not_cluster operation_id ng_id cluster_id :
  ("OP#" ++ operation_id, "CLUSTER#" ++ cluster_id)
  ≠ ("OP#" ++ operation_id, "NG#" ++ ng_id).
Proof. intros [= H]. Qed.

Lemma ng_key_not_meta operation_id ng_id :
  ("OP#" ++ operation_id, "META") ≠ ("OP#" ++ operation_id, "NG#" ++ ng_id).
Proof. intros [= H]. Qed.

(** The attributes the patch of [update_nodegroup_status] leaves in the
    row. *)
Lemma patched_row old status err desired now new :
  foldl (apply_set old) (Some old)
    ([SetValue "status" (AS status); SetValue "updated_at" (AN now)]
     ++ (if truthy err
         then [SetValue "error_message" (AS (default "" err))] else [])
     ++ match desired with
        | Some d => [SetValue "current_desired" (AN d)]
        | None => []
        end
     ++ (if String.eqb status "FAILED" then [SetIncrement "retry_count" 1] else []))
  = Some new →
  new !! "status" = Some (AS status)
  ∧ (truthy err = true → new !! "error_message" = Some (AS (default "" err)))
  ∧ (∀ d, desired = Some d → new !! "current_desired" = Some (AN d))
  ∧ (status = "FAILED" →
     ∃ n, old !! "retry_count" = Some (AN n)
          ∧ new !! "retry_count" = Some (AN (n + 1))).
Proof.
  intros Hfold.
  assert (Hcases :
    ∃ it, foldl (apply_set old) (Some old)
            ([SetValue "status" (AS status); SetValue "updated_at" (AN now)]
             ++ (if truthy err
                 then [SetValue "error_message" (AS (default "" err))] else [])
             ++ match desired with
                | Some d => [SetValue "current_desired" (AN d)]
                | None => []
                end) = Some it
          ∧ it !! "status" = Some (AS status)
          ∧ (truthy err = true →
             it !! "error_message" = Some (AS (default "" err)))
          ∧ (∀ d, desired = Some d → it !! "current_desired" = Some (AN d))).
  { destruct (truthy err), desired as [d |]; simpl; eexists;
      (split; [reflexivity |]); split_and!; intros; simplify_eq;
      by rewrite ?lookup_insert_ne, ?lookup_insert_eq by done. }
  destruct Hcases as (it & Hit & Hstatus & Herr & Hdesired).
  rewrite !app_assoc in Hfold. rewrite foldl_app in Hfold.
  rewrite <- !app_assoc in Hfold. rewrite Hit in Hfold.
  destruct (String.eqb status "FAILED") eqn:Hs; simpl in Hfold.
  - destruct (old !! "retry_count") as [[s | n] |] eqn:Hn; try done.
    injection Hfold as <-.
    split_and!.
    + by rewrite lookup_insert_ne.
    + intros He. rewrite lookup_insert_ne by done. auto.
    + intros d Hd. rewrite lookup_insert_ne by done. auto.
    + intros _. exists n. split; [done |]. apply lookup_insert_eq.
  - injection Hfold as <-. split_and!; [done | done | done |].
    intros ->. done.
Qed.

(** When [update_nodegroup_status] returns, the node group row holds the
    status, the error message and the desired size it was given; the
    propagation to the cluster and META rows does not touch it. *)
Lemma update_nodegroup_status_row w operation_id ng_id status err desired w' :
  update_nodegroup_status operation_id ng_id status err desired w = (Ret tt, w') →
  ∃ row,
    operations_table w' !! ("OP#" ++ operation_id, "NG#" ++ ng_id) = Some row
    ∧ row !! "status" = Some (AS status)
    ∧ (truthy err = true → row !! "error_message" = Some (AS (default "" err)))
    ∧ (∀ d, desired = Some d → row !! "current_desired" = Some (AN d)).
Proof.
  unfold update_nodegroup_status. intros H.
  apply bind_ret_inv in H as (w0 & w1 & [= <- <-] & H).
  apply bind_ret_inv in H as ([] & w2 & Hpatch & H).
  apply bind_ret_inv in H as ([] & w3 & Hcluster & Hmeta).
  apply request_ret_inv in Hpatch as [_ Hpatch].
  apply update_item_ret_inv in Hpatch as (new & Hfold & ->).
  apply patched_row in Hfold as (Hstatus & Herr & Hdesired & _).
  exists new. split_and!; [| done | done | done].
  set (proj := λ w : World,
         operations_table w !! ("OP#" ++ operation_id, "NG#" ++ ng_id)).
  assert (Km : along (same proj) (_update_meta_status operation_id)).
  { apply _update_meta_status_along; try tc_solve.
    intros it w5. apply lookup_insert_ne, ng_key_not_meta. }
  assert (Kc : along (same proj)
                 (_update_cluster_status operation_id
                    (Py.join ":" (take 3 (Py.split ":" ng_id))))).
  { apply _update_cluster_status_along; try tc_solve.
    intros it w5. apply lookup_insert_ne, ng_key_not_cluster. }
  change (proj w' = Some new).
  rewrite (along_run _ _ _ _ _ Km Hmeta), (along_run _ _ _ _ _ Kc Hcluster).
  apply lookup_insert_eq.
Qed.

End StateManagerFacts.

(** ** What the baseline store, the session factory and the controller change *)

Module ServiceFacts.
Import Aws MonadFacts.

Section Frames.
Context (R : relation World) `{!PreOrder R, !Inert R}.

Lemma get_assumed_role_session_along account_id :
  along R (Config.get_assumed_role_session account_id).
Proof. unfold Config.get_assumed_role_session. along_tac. Qed.

Lemma get_baseline_along cluster_id nodegroup_name :
  along R (ClusterBaseline.get_baseline cluster_id nodegroup_name).
Proof. unfold ClusterBaseline.get_baseline. along_tac. Qed.

Lemma save_baseline_along cluster_id nodegroup_name d mn mx :
  (∀ t w, R w (set_cluster_state_table t w)) →
  along R (ClusterBaseline.save_baseline cluster_id nodegroup_name d mn mx).
Proof.
  intros Htbl. unfold ClusterBaseline.save_baseline. along_tac.
  intros w. unfold ClusterBaseline.put_item_if_absent.
  destruct (cluster_state_table w !! _); simpl; [done | apply Htbl].
Qed.

Lemma delete_baseline_along cluster_id nodegroup_name :
  (∀ t w, R w (set_cluster_state_table t w)) →
  along R (ClusterBaseline.delete_baseline cluster_id nodegroup_name).
Proof. intros Htbl. unfold ClusterBaseline.delete_baseline. along_tac. Qed.

Lemma describe_auto_scaling_groups_along account_id region :
  along R (Discovery.describe_auto_scaling_groups account_id region).
Proof. unfold Discovery.describe_auto_scaling_groups. along_tac. Qed.

Lemma update_auto_scaling_group_along account_id region asg_name mn d mx :
  (∀ a w, R w (set_autoscaling a w)) →
  along R (EKSController.update_auto_scaling_group account_id region asg_name
             mn d mx).
Proof.
  intros Hasg. unfold EKSController.update_auto_scaling_group.
  apply along_request; along_side.
  intros w. destruct (existsb _ _); simpl; [apply Hasg | done].
Qed.

Lemma retry_from_along {A} attempt remaining before_sleep (body : M A) :
  along R body →
  along R (EKSController.retry_from attempt remaining before_sleep body).
Proof.
  intros Hbody. revert attempt.
  induction remaining as [| more IH]; intros attempt; simpl; [done |].
  apply along_try_except; along_side; [done |].
  destruct more as [| more']; [by apply along_raise |].
  unfold EKSController.sleep. along_tac. apply IH.
Qed.

Lemma resolve_asg_name_along account_id region cluster_name nodegroup_name
  asg_name not_found :
  along R (EKSController.resolve_asg_name account_id region cluster_name
             nodegroup_name asg_name not_found).
Proof.
  unfold EKSController.resolve_asg_name, EKSController._find_asg_name.
  along_tac. apply describe_auto_scaling_groups_along.
Qed.

Lemma start_nodegroup_along account_id region cluster_name nodegroup_name
  d mn mx asg_name :
  (∀ a w, R w (set_autoscaling a w)) →
  along R (EKSController.start_nodegroup account_id region cluster_name
             nodegroup_name d mn mx asg_name).
Proof.
  intros Hasg. unfold EKSController.start_nodegroup, EKSController.retry.
  apply retry_from_along. along_tac;
    first [ apply get_assumed_role_session_along
          | apply resolve_asg_name_along
          | by apply update_auto_scaling_group_along ].
Qed.

Lemma stop_nodegroup_along account_id region cluster_name nodegroup_name
  asg_name :
  (∀ a w, R w (set_autoscaling a w)) →
  along R (EKSController.stop_nodegroup account_id region cluster_name
             nodegroup_name asg_name).
Proof.
  intros Hasg. unfold EKSController.stop_nodegroup, EKSController.retry,
    EKSController.describe_by_name.
  apply retry_from_along. along_tac;
    first [ apply get_assumed_role_session_along
          | apply resolve_asg_name_along
          | by apply update_auto_scaling_group_along ].
Qed.

Lemma scale_nodegroup_along account_id region cluster_name nodegroup_name
  d mn mx asg_name :
  (∀ a w, R w (set_autoscaling a w)) →
  along R (EKSController.scale_nodegroup account_id region cluster_name
             nodegroup_name d mn mx asg_name).
Proof.
  intros Hasg. unfold EKSController.scale_nodegroup, EKSController.retry.
  apply retry_from_along. along_tac;
    first [ apply get_assumed_role_session_along
          | apply resolve_asg_name_along
          | by apply update_auto_scaling_group_along ].
Qed.

End Frames.

(** *** Runs in which the requests are answered *)

Lemma get_baseline_run w cluster_id nodegroup_name :
  fault w (ticks w) (DdbGetItem ClusterState (cluster_id, nodegroup_name)) = None →
  ClusterBaseline.get_baseline cluster_id nodegroup_name w
  = (Ret (cluster_state_table w !! (cluster_id, nodegroup_name)),
     set_ticks (S (ticks w)) w).
Proof.
  intros Hf. unfold ClusterBaseline.get_baseline.
  by rewrite request_answered.
Qed.

(** A start with a name that names a group, when STS and Auto Scaling
    answer: the first attempt succeeds and the named group is resized. *)
Lemma start_nodegroup_run w account_id region cluster_name nodegroup_name
  d mn mx asg_name :
  (∀ n, fault w n (StsAssumeRole account_id) = None) →
  (∀ n, fault w n (AsgUpdate account_id region asg_name) = None) →
  asg_name ≠ "" →
  (∃ g, g ∈ EKSController.groups account_id region w
        ∧ AutoScalingGroupName g = asg_name) →
  ∃ w1,
    EKSController.start_nodegroup account_id region cluster_name nodegroup_name
      d mn mx (Some asg_name) w
    = (Ret (EKSController.STARTED d mn mx), w1)
    ∧ autoscaling w1
      = <[(account_id, region) :=
            EKSController.resize_named asg_name (Some mn) (Some d) (Some mx)
            <$> EKSController.groups account_id region w]> (autoscaling w).
Proof.
  intros Hsts Hasg Hname (g & Hg & Hgn).
  assert (Htruthy : String.eqb asg_name "" = false)
    by (by apply String.eqb_neq).
  assert (Hex : existsb (λ g, String.eqb (AutoScalingGroupName g) asg_name)
                  (EKSController.groups account_id region w) = true).
  { apply existsb_exists. exists g. split; [by apply list_elem_of_In |].
    by apply String.eqb_eq. }
  unfold EKSController.start_nodegroup, EKSController.retry,
    EKSController.retry_from, Config.get_assumed_role_session,
    EKSController.resolve_asg_name, EKSController.update_auto_scaling_group,
    StateManager.truthy, EKSController.groups in *.
  run_monad. rewrite Hsts. simpl. rewrite Htruthy. simpl.
  rewrite Hasg, Hex. simpl. eexists. split; reflexivity.
Qed.

End ServiceFacts.

(** ** The baseline store *)

Module BaselineProps.
Import Aws ClusterBaseline.

(** The oracle is part of the world that no computation changes. *)
Lemma save_baseline_fault w cid ng d mn mx :
  fault (save_baseline cid ng d mn mx w).2 = fault w.
Proof.
  unfold save_baseline, put_item_if_absent. run_monad.
  destruct (fault w (ticks w) _) as [e |]; simpl.
  - destruct (is_client_error e); simpl; [| done].
    by destruct (String.eqb (error_code e) _).
  - by destruct (cluster_state_table w !! (cid, ng)).
Qed.

(** A save never touches a row that is already stored, whatever the
    service does. *)
Lemma save_baseline_preserves w cid ng d mn mx row :
  cluster_state_table w !! (cid, ng) = Some row →
  cluster_state_table (save_baseline cid ng d mn mx w).2
  = cluster_state_table w.
Proof.
  intros Hrow. unfold save_baseline, put_item_if_absent. run_monad.
  destruct (fault w (ticks w) _) as [e |]; simpl.
  - destruct (is_client_error e); simpl; [| done].
    by destruct (String.eqb (error_code e) _).
  - by rewrite Hrow.
Qed.

Lemma save_baseline_absent w cid ng d mn mx :
  fault w (ticks w) (DdbPutItem ClusterState (cid, ng)) = None →
  cluster_state_table w !! (cid, ng) = None →
  (save_baseline cid ng d mn mx w).1 = Ret true
  ∧ cluster_state_table (save_baseline cid ng d mn mx w).2
    = <[(cid, ng) := {| b_cluster_id := cid; b_nodegroup_name := ng;
                        b_desired_size := d; b_min_size := mn;
                        b_max_size := mx; b_saved_at := clock w;
                        b_version := 1 |}]> (cluster_state_table w).
Proof.
  intros Hf Habs. unfold save_baseline, put_item_if_absent. run_monad.
  rewrite Hf. simpl. by rewrite Habs.
Qed.

Lemma save_baseline_present w cid ng d mn mx row :
  fault w (ticks w) (DdbPutItem ClusterState (cid, ng)) = None →
  cluster_state_table w !! (cid, ng) = Some row →
  (save_baseline cid ng d mn mx w).1 = Ret false
  ∧ cluster_state_table (save_baseline cid ng d mn mx w).2
    = cluster_state_table w.
Proof.
  intros Hf Hrow. unfold save_baseline, put_item_if_absent. run_monad.
  rewrite Hf. simpl. by rewrite Hrow.
Qed.

Lemma save_baseline_ticks w cid ng d mn mx :
  ticks (save_baseline cid ng d mn mx w).2 = S (ticks w).
Proof.
  unfold save_baseline, put_item_if_absent. run_monad.
  destruct (fault w (ticks w) _) as [e |]; simpl.
  - destruct (is_client_error e); simpl; [| done].
    by destruct (String.eqb (error_code e) _).
  - by destruct (cluster_state_table w !! (cid, ng)).
Qed.

(** C3. [save_baseline] writes the row, with [version = 1] and [saved_at],
    only when no row is stored under [(cluster_id, nodegroup_name)], and then
    returns true; when a row is stored it returns false and leaves the table
    as it was. Hence a second save with other sizes, at any later time,
    returns false and the sizes captured first are still the stored ones. *)
Theorem save_baseline_only_if_absent (w : World) (cid ng : string)
  (d mn mx : Z) :
  fault w (ticks w) (DdbPutItem ClusterState (cid, ng)) = None →
  let first := save_baseline cid ng d mn mx w in
  match cluster_state_table w !! (cid, ng) with
  | None =>
      first.1 = Ret true
      ∧ cluster_state_table first.2
        = <[(cid, ng) := {| b_cluster_id := cid; b_nodegroup_name := ng;
                            b_desired_size := d; b_min_size := mn;
                            b_max_size := mx; b_saved_at := clock w;
                            b_version := 1 |}]> (cluster_state_table w)
      ∧ ∀ d' mn' mx' t',
          fault w (S (ticks w)) (DdbPutItem ClusterState (cid, ng)) = None →
          let second := save_baseline cid ng d' mn' mx' (set_clock t' first.2) in
          second.1 = Ret false
          ∧ cluster_state_table second.2 !! (cid, ng)
            = Some {| b_cluster_id := cid; b_nodegroup_name := ng;
                      b_desired_size := d; b_min_size := mn;
                      b_max_size := mx; b_saved_at := clock w;
                      b_version := 1 |}
  | Some row =>
      first.1 = Ret false
      ∧ cluster_state_table first.2 = cluster_state_table w
  end.
Proof.
  intros Hf first.
  destruct (cluster_state_table w !! (cid, ng)) as [row |] eqn:Hrow.
  - by apply save_baseline_present with row.
  - destruct (save_baseline_absent w cid ng d mn mx Hf Hrow) as [Hret Htbl].
    split_and!; [done | done |].
    intros d' mn' mx' t' Hf2 second.
    assert (Hstored : cluster_state_table (set_clock t' first.2) !! (cid, ng)
              = Some {| b_cluster_id := cid; b_nodegroup_name := ng;
                        b_desired_size := d; b_min_size := mn;
                        b_max_size := mx; b_saved_at := clock w;
                        b_version := 1 |}).
    { simpl. subst first. rewrite Htbl. apply lookup_insert_eq. }
    assert (Hf2' : fault (set_clock t' first.2) (ticks (set_clock t' first.2))
                     (DdbPutItem ClusterState (cid, ng)) = None).
    { simpl. subst first. by rewrite save_baseline_fault, save_baseline_ticks. }
    destruct (save_baseline_present _ cid ng d' mn' mx' _ Hf2' Hstored)
      as [Hret2 Htbl2].
    split; [done |]. subst second. by rewrite Htbl2.
Qed.

Lemma save_baseline_only_if_absent_witness :
  fault Sample.quiet (ticks Sample.quiet)
    (DdbPutItem ClusterState ("111111111111:us-east-1:dev", "workers")) = None
  ∧ (save_baseline "111111111111:us-east-1:dev" "workers" 3 1 5 Sample.quiet).1
    = Ret true
  ∧ (save_baseline "111111111111:us-east-1:dev" "workers" 0 0 5
       (set_clock 2000
          (save_baseline "111111111111:us-east-1:dev" "workers" 3 1 5
             Sample.quiet).2)).1 = Ret false.
Proof.
  split; [reflexivity |].
  pose proof (save_baseline_only_if_absent Sample.quiet
                "111111111111:us-east-1:dev" "workers" 3 1 5 eq_refl) as H.
  cbv zeta in H.
  change (cluster_state_table Sample.quiet !! _) with (@None BaselineRow) in H.
  destruct H as (Hfirst & _ & Hsecond).
  split; [exact Hfirst |].
  exact (proj1 (Hsecond 0 0 5 2000 eq_refl)).
Defined.

End BaselineProps.

(** ** The idempotency lock *)

Module LockProps.
Import Aws StateManager.

Lemma lock_item_expires lock_key now ttl :
  lock_item lock_key now ttl !! "expires_at" = Some (AN (now + ttl)).
Proof.
  unfold lock_item. rewrite lookup_insert_ne by done. apply lookup_insert_eq.
Qed.

(** What one acquire does when the request reaches the table. *)
Lemma acquire_run w lock_key ttl :
  fault w (ticks w) (DdbPutItem Operations (lock_key_of lock_key)) = None →
  acquire_idempotency_lock lock_key ttl w
  = if lock_condition (operations_table w !! lock_key_of lock_key) (clock w)
    then (Ret true,
          set_operations_table
            (<[lock_key_of lock_key := lock_item lock_key (clock w) ttl]>
               (operations_table w))
            (set_ticks (S (ticks w)) w))
    else (Ret false, set_ticks (S (ticks w)) w).
Proof.
  intros Hf. unfold acquire_idempotency_lock, put_item_lock, lock_key_of in *.
  run_monad. rewrite Hf. simpl.
  by destruct (lock_condition _ _).
Qed.

Lemma lock_condition_true existing now :
  lock_condition existing now = true
  ↔ existing = None
    ∨ ∃ old e, existing = Some old ∧ old !! "expires_at" = Some (AN e) ∧ e < now.
Proof.
  unfold lock_condition. split.
  - destruct existing as [old |]; [| by left].
    destruct (old !! "expires_at") as [[s | e] |] eqn:He; try done.
    intros Hlt%bool_decide_eq_true_1. right. by exists old, e.
  - intros [-> | (old & e & -> & -> & Hlt)]; [done |].
    by apply bool_decide_eq_true_2.
Qed.

(** C4. [acquire_idempotency_lock] returns true exactly when no lock row is
    stored under [(LOCK#<lock_key>, LOCK)] or the stored row's [expires_at]
    is below the current time, and then the row stored under that key is the
    one it wrote, with [expires_at = now + ttl]; otherwise the conditional
    check fails, it returns false and the table is unchanged. Hence, of two
    acquires of one key of which the second comes within the TTL window
    opened by the first, at most one returns true. *)
Theorem acquire_lock_exclusive (w : World) (lock_key : string) (ttl : Z) :
  fault w (ticks w) (DdbPutItem Operations ("LOCK#" ++ lock_key, "LOCK")) = None →
  let first := acquire_idempotency_lock lock_key ttl w in
  let existing := operations_table w !! ("LOCK#" ++ lock_key, "LOCK") in
  (first.1 = Ret true
   ↔ existing = None
     ∨ ∃ old e, existing = Some old
                ∧ old !! "expires_at" = Some (AN e) ∧ e < clock w)
  ∧ (first.1 = Ret true →
     ∃ row,
       operations_table first.2 !! ("LOCK#" ++ lock_key, "LOCK") = Some row
       ∧ row = lock_item lock_key (clock w) ttl
       ∧ row !! "PK" = Some (AS ("LOCK#" ++ lock_key))
       ∧ row !! "SK" = Some (AS "LOCK")
       ∧ row !! "expires_at" = Some (AN (clock w + ttl))
       ∧ ∀ key, key ≠ ("LOCK#" ++ lock_key, "LOCK") →
           operations_table first.2 !! key = operations_table w !! key)
  ∧ (first.1 ≠ Ret true →
     first.1 = Ret false ∧ operations_table first.2 = operations_table w)
  ∧ ∀ t2 ttl2,
      clock w ≤ t2 ≤ clock w + ttl →
      fault w (S (ticks w)) (DdbPutItem Operations ("LOCK#" ++ lock_key, "LOCK"))
      = None →
      let second := acquire_idempotency_lock lock_key ttl2 (set_clock t2 first.2) in
      ¬ (first.1 = Ret true ∧ second.1 = Ret true).
Proof.
  intros Hf first existing. subst first existing.
  change ("LOCK#" ++ lock_key, "LOCK") with (lock_key_of lock_key) in *.
  rewrite (acquire_run w lock_key ttl Hf).
  destruct (lock_condition _ _) eqn:Hc; simpl.
  - split_and!.
    + split; [intros _; by apply lock_condition_true | done].
    + intros _. exists (lock_item lock_key (clock w) ttl).
      split_and!.
      * apply lookup_insert_eq.
      * done.
      * unfold lock_item, key_item, lock_key_of. simpl.
        rewrite !lookup_insert_ne by done. apply lookup_insert_eq.
      * unfold lock_item, key_item, lock_key_of. simpl.
        rewrite !lookup_insert_ne by done. apply lookup_insert_eq.
      * apply lock_item_expires.
      * intros key Hkey. by rewrite lookup_insert_ne.
    + done.
    + intros t2 ttl2 Ht2 Hf2 [_ Hsecond].
      rewrite acquire_run in Hsecond by exact Hf2. simpl in Hsecond.
      rewrite lookup_insert_eq in Hsecond.
      unfold lock_condition in Hsecond.
      rewrite lock_item_expires in Hsecond.
      rewrite bool_decide_eq_false_2 in Hsecond by lia. done.
  - split_and!.
    + split; [done |]. intros H%lock_condition_true. congruence.
    + done.
    + done.
    + intros t2 ttl2 _ _ [H _]. done.
Qed.

Lemma acquire_lock_exclusive_witness :
  fault Sample.quiet (ticks Sample.quiet)
    (DdbPutItem Operations ("LOCK#schedule:X:scale:2025-01-01T12:00", "LOCK"))
  = None
  ∧ (acquire_idempotency_lock "schedule:X:scale:2025-01-01T12:00" 120
       Sample.quiet).1 = Ret true
  ∧ (acquire_idempotency_lock "schedule:X:scale:2025-01-01T12:00" 120
       (set_clock 1030
          (acquire_idempotency_lock "schedule:X:scale:2025-01-01T12:00" 120
             Sample.quiet).2)).1 ≠ Ret true.
Proof.
  split; [reflexivity |].
  pose proof (acquire_lock_exclusive Sample.quiet
                "schedule:X:scale:2025-01-01T12:00" 120 eq_refl) as H.
  cbv zeta in H. destruct H as (Hiff & _ & _ & Htwo).
  assert (Hfirst : (acquire_idempotency_lock
                      "schedule:X:scale:2025-01-01T12:00" 120 Sample.quiet).1
                   = Ret true) by (apply Hiff; by left).
  split; [exact Hfirst |].
  intros Hsecond.
  apply (Htwo 1030 120); [simpl; lia | reflexivity | by split].
Defined.

End LockProps.

(** ** ASG resolution *)

Module ControllerProps.
Import Aws EKSController.

(** One step of the loop: a group outside the cluster is passed over, and a
    group of the cluster is the answer whatever its node group tag says. *)
Lemma find_asg_cons cluster_name nodegroup_name asg rest :
  find_asg cluster_name nodegroup_name (asg :: rest)
  = if Discovery.asg_of_cluster cluster_name (Py.dict_of_pairs (Tags asg))
    then Some (AutoScalingGroupName asg)
    else find_asg cluster_name nodegroup_name rest.
Proof.
  simpl. unfold Discovery.asg_of_cluster.
  rewrite <- negb_orb.
  destruct (_ || _); simpl; [| done].
  by repeat destruct (_ && _); repeat destruct (Py.contains _ _).
Qed.

(** Whatever the node group asked for, the resolution answers with the
    first group of the list that belongs to the cluster. *)
Lemma find_asg_first_of_cluster cluster_name nodegroup_name asgs :
  find_asg cluster_name nodegroup_name asgs
  = AutoScalingGroupName
      <$> head (filter (λ g, Discovery.asg_of_cluster cluster_name
                               (Py.dict_of_pairs (Tags g))) asgs).
Proof.
  induction asgs as [| asg rest IH]; [reflexivity |].
  rewrite find_asg_cons, filter_cons.
  by destruct (Discovery.asg_of_cluster _ _) eqn:Hm; simpl.
Qed.

(** It answers nothing only when no group of the list belongs to the
    cluster. *)
Lemma find_asg_none cluster_name nodegroup_name asgs :
  find_asg cluster_name nodegroup_name asgs = None
  ↔ ∀ g, g ∈ asgs →
         Discovery.asg_of_cluster cluster_name (Py.dict_of_pairs (Tags g)) = false.
Proof.
  induction asgs as [| asg rest IH].
  - split; [intros _ g Hg; by apply elem_of_nil in Hg | done].
  - rewrite find_asg_cons.
    destruct (Discovery.asg_of_cluster _ _) eqn:Hm.
    + split; [done |]. intros Hall.
      rewrite (Hall asg) in Hm by left. done.
    + rewrite IH. split.
      * intros Hall g [-> | Hg]%elem_of_cons; auto.
      * intros Hall g Hg. apply Hall. by right.
Qed.

(** C9. With no [asg_name], the resolution does not prefer the group whose
    [eks:nodegroup-name] tag is the requested node group: of two groups of
    the cluster [dev], tagged [workers] and [batch] in this order, it
    answers the first when [batch] is asked for. *)
Theorem find_asg_name_ignores_nodegroup_tag :
  (_find_asg_name Sample.account Sample.region "dev" "batch" Sample.fleet).1
  = Ret (Some "eks-dev-workers")
  ∧ find_asg "dev" "batch"
      [ Sample.asg "eks-dev-workers" "dev" "workers" 3 1 5;
        Sample.asg "eks-dev-batch" "dev" "batch" 2 0 4 ]
    = Some "eks-dev-workers".
Proof. split; vm_compute; reflexivity. Qed.

End ControllerProps.

(** ** The production guard *)

Module DiscoveryProps.
Import Aws Discovery.

(** The guard looks at one key only. *)
Example env_tag_first_key :
  env_tag [("env", "dev"); ("Environment", "production")] = "dev"
  ∧ is_production [("env", "dev"); ("Environment", "production")] = false
  ∧ spec_production_tagged [("env", "dev"); ("Environment", "production")] = true.
Proof. repeat split. Qed.

Example env_tag_mixed_case :
  is_production [("Team", "core"); ("ENVIRONMENT", "Production")] = true.
Proof. reflexivity. Qed.

(** What the guard does ensure: no cluster that discovery returns has
    [prod] or [production] under its first environment key. *)
Lemma discover_named_guard account_id region label_filter cluster_names w
  clusters w' :
  discover_named account_id region label_filter cluster_names w
  = (Ret clusters, w') →
  Forall (λ c, is_production (c_tags c) = false) clusters.
Proof.
  revert w clusters w'.
  induction cluster_names as [| cluster_name rest IH]; intros w clusters w' Hrun.
  - injection Hrun as <- _. constructor.
  - simpl in Hrun.
    apply MonadFacts.bind_ret_inv in Hrun as (described & w1 & _ & Hrun).
    destruct described as [cluster |]; cbv beta iota in Hrun; [| by eapply IH].
    destruct (is_production (c_tags cluster)) eqn:Hprod.
    + apply MonadFacts.bind_ret_inv in Hrun as ([] & w2 & _ & Hrun).
      by eapply IH.
    + destruct (match label_filter with
                | Some ((_ :: _) as lf) =>
                    negb (_matches_labels (c_tags cluster) lf)
                | _ => false
                end); [by eapply IH |].
      apply MonadFacts.bind_ret_inv in Hrun as (asgs & w2 & _ & Hrun).
      apply MonadFacts.bind_ret_inv in Hrun as (more & w3 & Hmore & Hrun).
      injection Hrun as <- _. constructor; [done | by eapply IH].
Qed.

Lemma _discover_account_clusters_guard account_id region label_filter w
  clusters w' :
  _discover_account_clusters account_id region label_filter w
  = (Ret clusters, w') →
  Forall (λ c, is_production (c_tags c) = false) clusters.
Proof.
  unfold _discover_account_clusters. intros Hrun.
  apply MonadFacts.try_ret_inv in Hrun as [Hrun | (e & w1 & _ & _ & Hrun)].
  - apply MonadFacts.bind_ret_inv in Hrun as ([] & w1 & _ & Hrun).
    apply MonadFacts.bind_ret_inv in Hrun as (names & w2 & _ & Hrun).
    by eapply discover_named_guard.
  - by apply MonadFacts.bind_ret_inv in Hrun as ([] & w2 & _ & Hrun).
Qed.

Lemma gather_guard label_filter tasks w clusters w' :
  gather label_filter tasks w = (Ret clusters, w') →
  Forall (λ c, is_production (c_tags c) = false) clusters.
Proof.
  revert w clusters w'.
  induction tasks as [| [account_id region] rest IH]; intros w clusters w' Hrun.
  - injection Hrun as <- _. constructor.
  - simpl in Hrun.
    apply MonadFacts.bind_ret_inv in Hrun as (found & w1 & Hfound & Hrun).
    apply MonadFacts.bind_ret_inv in Hrun as (more & w2 & Hmore & Hrun).
    injection Hrun as <- _. apply Forall_app. split; [| by eapply IH].
    apply MonadFacts.try_ret_inv in Hfound
      as [Hfound | (e & w3 & _ & _ & Hfound)].
    + by eapply _discover_account_clusters_guard.
    + apply MonadFacts.bind_ret_inv in Hfound as ([] & w4 & _ & Hfound).
      injection Hfound as <- _. constructor.
Qed.

Lemma discover_clusters_guard label_filter w clusters w' :
  discover_clusters label_filter w = (Ret clusters, w') →
  Forall (λ c, is_production (c_tags c) = false) clusters.
Proof.
  unfold discover_clusters, discover_all_resources. intros Hrun.
  apply MonadFacts.bind_ret_inv in Hrun as (w0 & w1 & _ & Hrun).
  apply MonadFacts.bind_ret_inv in Hrun as (ids & w2 & _ & Hrun).
  apply MonadFacts.bind_ret_inv in Hrun as ([] & w3 & _ & Hrun).
  by eapply gather_guard.
Qed.

(** The value the guard tests, by the first entry of the dictionary. *)
Lemma env_tag_cons key value rest :
  env_tag ((key, value) :: rest)
  = if bool_decide (Py.lower key ∈ ["env"; "environment"])
    then Py.lower value else env_tag rest.
Proof.
  unfold env_tag, env_key, Py.dict_keys. rewrite fmap_cons, filter_cons. simpl.
  case_bool_decide as Hkey.
  - rewrite decide_True by done. simpl.
    destruct (String.eqb_spec key "") as [-> | _].
    + exfalso. vm_compute in Hkey.
      repeat (apply elem_of_cons in Hkey as [Hkey | Hkey]; [done |]).
      by apply elem_of_nil in Hkey.
    + by rewrite String.eqb_refl.
  - rewrite decide_False by done.
    destruct (head _) as [key' |] eqn:Hhead; [| done].
    destruct (String.eqb key' ""); [done |].
    destruct (String.eqb_spec key key') as [-> | _]; [| done].
    exfalso. apply Hkey.
    apply head_Some_elem_of, list_elem_of_filter in Hhead. tauto.
Qed.

(** With at most one environment key, the guard of the code is the guard of
    the specification; the two part ways only on a second such key. *)
Lemma is_production_single_key tags :
  (length (filter (λ kv, Py.lower kv.1 ∈ ["env"; "environment"]) tags) ≤ 1)%nat →
  is_production tags = spec_production_tagged tags.
Proof.
  unfold is_production.
  induction tags as [| [key value] rest IH]; intros Hone; [done |].
  rewrite env_tag_cons. rewrite filter_cons in Hone.
  change (spec_production_tagged ((key, value) :: rest))
    with (bool_decide (Py.lower key ∈ ["env"; "environment"])
          && bool_decide (Py.lower value ∈ ["prod"; "production"])
          || spec_production_tagged rest).
  change (Py.lower (key, value).1) with (Py.lower key) in Hone.
  destruct (decide (Py.lower key ∈ ["env"; "environment"])) as [Hkey | Hkey].
  - rewrite (bool_decide_eq_true_2 _ Hkey).
    assert (Hnone : spec_production_tagged rest = false).
    { apply not_true_is_false. intros [kv [Hin Hkv]]%existsb_exists.
      apply andb_true_iff in Hkv as [Hk%bool_decide_eq_true_1 _].
      assert (kv ∈ filter (λ kv, Py.lower kv.1 ∈ ["env"; "environment"]) rest)
        as Hmem by (apply list_elem_of_filter; split;
                      [done | by apply list_elem_of_In]).
      destruct (filter _ rest); [by apply elem_of_nil in Hmem |].
      rewrite !length_cons in Hone. lia. }
    by rewrite Hnone, orb_false_r.
  - rewrite (bool_decide_eq_false_2 _ Hkey). by apply IH.
Qed.

(** C2. Discovery returns a cluster that is tagged as production: the
    cluster [shop] of the sample fleet carries [env=dev] followed by
    [Environment=production], and it is among the clusters returned. *)
Theorem production_guard_misses_later_key :
  match (discover_clusters None Sample.fleet).1 with
  | Ret clusters =>
      c_cluster_name <$> clusters = ["dev"; "shop"]
      ∧ c_cluster_name
          <$> filter (λ c, spec_production_tagged (c_tags c)) clusters
        = ["shop"]
  | Raise _ => False
  end.
Proof. vm_compute. split; reflexivity. Qed.

End DiscoveryProps.

(** ** The worker *)

Module WorkerProps.
Import Aws MonadFacts TaskWorker.

(** Closes [along R m] for the calls the worker makes, for a relation that
    ignores what those calls change. *)
Ltac along_calls :=
  repeat first
    [ along_step
    | apply StateManagerFacts.update_nodegroup_status_along;
      [tc_solve | tc_solve | setter_inert]
    | apply ServiceFacts.delete_baseline_along;
      [tc_solve | tc_solve | setter_inert]
    | apply ServiceFacts.save_baseline_along;
      [tc_solve | tc_solve | setter_inert]
    | apply ServiceFacts.get_baseline_along; [tc_solve | tc_solve]
    | apply ServiceFacts.start_nodegroup_along;
      [tc_solve | tc_solve | setter_inert]
    | apply ServiceFacts.stop_nodegroup_along;
      [tc_solve | tc_solve | setter_inert]
    | apply ServiceFacts.scale_nodegroup_along;
      [tc_solve | tc_solve | setter_inert] ].

(** Recording a failure changes neither the groups nor the baselines, and
    only adds to the log. *)
Lemma record_failure_groups operation_id ng_id e :
  along (same autoscaling) (record_failure operation_id ng_id e).
Proof. unfold record_failure. along_calls. Qed.

Lemma record_failure_logs operation_id ng_id e :
  along more_logs (record_failure operation_id ng_id e).
Proof. unfold record_failure. along_calls. Qed.

(** What follows the resize in the start path leaves the groups alone. *)
Lemma start_tail_groups operation_id ng_id target_size cluster_id name :
  along (same autoscaling)
    (StateManager.update_nodegroup_status operation_id ng_id "COMPLETED" None
       (Some target_size);;
     ClusterBaseline.delete_baseline cluster_id name).
Proof. along_calls. Qed.

Lemma start_from_sizes_logs operation_id account_id region cluster_name
  cluster_id ng target_size min_size max_size :
  along more_logs
    (EKSController.start_nodegroup account_id region cluster_name (ng_name ng)
       target_size min_size max_size (ng_asg_name ng);;
     StateManager.update_nodegroup_status operation_id
       (cluster_id ++ ":" ++ ng_name ng) "COMPLETED" None (Some target_size);;
     ClusterBaseline.delete_baseline cluster_id (ng_name ng)).
Proof. along_calls. Qed.

(** The start path once the sizes are chosen: the named group is resized to
    them and no other group changes, whatever happens afterwards. *)
Lemma start_from_sizes w2 operation_id account_id region cluster_name
  cluster_id ng asg_name target_size min_size max_size :
  calm w2 →
  ng_asg_name ng = Some asg_name → asg_name ≠ "" →
  (∃ g, g ∈ EKSController.groups account_id region w2
        ∧ AutoScalingGroupName g = asg_name) →
  autoscaling
    ((EKSController.start_nodegroup account_id region cluster_name (ng_name ng)
        target_size min_size max_size (ng_asg_name ng);;
      StateManager.update_nodegroup_status operation_id
        (cluster_id ++ ":" ++ ng_name ng) "COMPLETED" None (Some target_size);;
      ClusterBaseline.delete_baseline cluster_id (ng_name ng)) w2).2
  = <[(account_id, region) :=
        EKSController.resize_named asg_name (Some min_size) (Some target_size)
          (Some max_size)
        <$> EKSController.groups account_id region w2]> (autoscaling w2).
Proof.
  intros Hcalm Hasg Hne Hex. rewrite Hasg.
  destruct (ServiceFacts.start_nodegroup_run w2 account_id region cluster_name
              (ng_name ng) target_size min_size max_size asg_name)
    as (w3 & Hrun & Hauto); [by intros n | by intros n | done | done |].
  rewrite (bind_ret_step _ _ _ _ _ Hrun), <- Hauto.
  apply start_tail_groups.
Qed.

(** The groups after a run of the loop body are those after its [try]
    body: the handler does not touch them. *)
Lemma process_nodegroup_groups message operation_id action account_id region
  cluster_name cluster_id ng w :
  autoscaling (process_nodegroup message operation_id action account_id region
                 cluster_name cluster_id ng w).2
  = autoscaling (dispatch message operation_id action account_id region
                   cluster_name cluster_id ng w).2.
Proof.
  unfold process_nodegroup.
  apply (along_handlers (same autoscaling)). intros e.
  apply record_failure_groups.
Qed.

Lemma process_nodegroup_logs message operation_id action account_id region
  cluster_name cluster_id ng w :
  logs (dispatch message operation_id action account_id region cluster_name
          cluster_id ng w).2
  `prefix_of`
  logs (process_nodegroup message operation_id action account_id region
          cluster_name cluster_id ng w).2.
Proof.
  unfold process_nodegroup.
  apply (along_handlers more_logs). intros e. apply record_failure_logs.
Qed.

(** C5. In the start path, when the baseline lookup finds a row, the sizes
    applied to the node group's ASG are the row's desired, min and max; when
    it finds none, a warning is logged and the sizes applied are the node
    group's current [min_size] as desired capacity and as minimum, and its
    current [max_size] as maximum. No other group changes. *)
Theorem start_applies_baseline_or_current_sizes (w : World)
  (message : MessageDict)
  (operation_id account_id region cluster_name cluster_id : string)
  (ng : NodeGroup) (asg_name : string) :
  calm w →
  ng_asg_name ng = Some asg_name → asg_name ≠ "" →
  (∃ g, g ∈ EKSController.groups account_id region w
        ∧ AutoScalingGroupName g = asg_name) →
  let w' := (process_nodegroup message operation_id "start" account_id region
               cluster_name cluster_id ng w).2 in
  match cluster_state_table w !! (cluster_id, ng_name ng) with
  | Some saved =>
      EKSController.groups account_id region w'
      = EKSController.resize_named asg_name (Some (b_min_size saved))
          (Some (b_desired_size saved)) (Some (b_max_size saved))
        <$> EKSController.groups account_id region w
  | None =>
      ∀ current_min current_max,
        ng_min_size ng = Some current_min →
        ng_max_size ng = Some current_max →
        EKSController.groups account_id region w'
        = EKSController.resize_named asg_name (Some current_min)
            (Some current_min) (Some current_max)
          <$> EKSController.groups account_id region w
        ∧ no_baseline_warning cluster_id ng ∈ logs w'
  end.
Proof.
  intros Hcalm Hasg Hne Hex w'.
  assert (Hstep :
    dispatch message operation_id "start" account_id region cluster_name
      cluster_id ng w
    = (match cluster_state_table w !! (cluster_id, ng_name ng) with
       | None =>
           log WARNING ("No baseline found for "
                        ++ (cluster_id ++ ":" ++ ng_name ng)
                        ++ ", using current min_size");;
           target_size ← subscript "min_size" (ng_min_size ng);
           min_size ← subscript "min_size" (ng_min_size ng);
           max_size ← subscript "max_size" (ng_max_size ng);
           mret (target_size, min_size, max_size)
       | Some saved =>
           mret (b_desired_size saved, b_min_size saved, b_max_size saved)
       end
       ≫= λ '(target_size, min_size, max_size),
            EKSController.start_nodegroup account_id region cluster_name
              (ng_name ng) target_size min_size max_size (ng_asg_name ng);;
            StateManager.update_nodegroup_status operation_id
              (cluster_id ++ ":" ++ ng_name ng) "COMPLETED" None
              (Some target_size);;
            ClusterBaseline.delete_baseline cluster_id (ng_name ng))
        (set_ticks (S (ticks w)) w)).
  { unfold dispatch.
    change (String.eqb "start" "stop") with false.
    change (String.eqb "start" "start") with true. cbv iota.
    by rewrite (bind_ret_step _ _ _ _ _
                  (ServiceFacts.get_baseline_run w cluster_id (ng_name ng)
                     (Hcalm _ _))). }
  assert (Hgroups : ∀ w0, autoscaling w0 = autoscaling w →
            EKSController.groups account_id region w0
            = EKSController.groups account_id region w)
    by (intros w0 Hw0; unfold EKSController.groups; by rewrite Hw0).
  destruct (cluster_state_table w !! (cluster_id, ng_name ng)) as [saved |].
  - erewrite bind_ret_step in Hstep; [| reflexivity].
    cbv beta iota in Hstep.
    unfold EKSController.groups at 1. subst w'.
    rewrite process_nodegroup_groups, Hstep.
    rewrite (start_from_sizes _ operation_id account_id region cluster_name
               cluster_id ng asg_name)
      by first [exact Hcalm | exact Hasg | exact Hne | exact Hex].
    by rewrite lookup_insert_eq.
  - intros current_min current_max Hmin Hmax.
    rewrite Hmin, Hmax in Hstep.
    erewrite (bind_ret_step _ _ _ (current_min, current_min, current_max))
      in Hstep; [| reflexivity].
    cbv beta iota in Hstep. split.
    + unfold EKSController.groups at 1. subst w'.
      rewrite process_nodegroup_groups, Hstep.
      rewrite (start_from_sizes _ operation_id account_id region cluster_name
               cluster_id ng asg_name)
      by first [exact Hcalm | exact Hasg | exact Hne | exact Hex].
      by rewrite lookup_insert_eq.
    + subst w'.
      eapply elem_of_prefix; [| apply process_nodegroup_logs].
      rewrite Hstep.
      eapply elem_of_prefix;
        [| apply (start_from_sizes_logs operation_id account_id region
                    cluster_name cluster_id ng current_min current_min
                    current_max)].
      simpl. apply elem_of_app. right. left.
Qed.

Lemma start_applies_baseline_or_current_sizes_witness :
  calm Sample.fleet
  ∧ EKSController.groups Sample.account Sample.region
      (process_nodegroup (Sample.message "start" "workers") "op-1" "start"
         Sample.account Sample.region "dev" Sample.dev_id Sample.workers
         Sample.fleet).2
    = EKSController.resize_named "eks-dev-workers" (Some 1) (Some 1) (Some 5)
      <$> EKSController.groups Sample.account Sample.region Sample.fleet.
Proof.
  assert (Hcalm : calm Sample.fleet) by (by intros n r).
  split; [exact Hcalm |].
  assert (Hex : ∃ g, g ∈ EKSController.groups Sample.account Sample.region
                           Sample.fleet
                     ∧ AutoScalingGroupName g = "eks-dev-workers").
  { exists (Sample.asg "eks-dev-workers" "dev" "workers" 3 1 5).
    split; [vm_compute; left | reflexivity]. }
  pose proof (start_applies_baseline_or_current_sizes Sample.fleet
                (Sample.message "start" "workers") "op-1" Sample.account
                Sample.region "dev" Sample.dev_id Sample.workers
                "eks-dev-workers" Hcalm eq_refl ltac:(done) Hex) as H.
  cbv zeta in H.
  change (cluster_state_table Sample.fleet !! _) with (@None BaselineRow) in H.
  exact (proj1 (H 1 5 eq_refl eq_refl)).
Defined.

(** The claim as worded fails on the sample fleet: [workers] runs at
    (desired 3, min 1, max 5) and has no baseline; after a start message the
    group is at desired 1 and min 1, and its maximum is the current maximum
    5, not the current minimum 1. *)
Lemma start_fallback_keeps_current_max :
  cluster_state_table Sample.fleet !! (Sample.dev_id, "workers") = None
  ∧ ng_min_size Sample.workers = Some 1
  ∧ Sample.sizes (_process_message (Sample.message "start" "workers")
                    Sample.fleet).2
    = [("eks-dev-workers", 1, 1, 5); ("eks-dev-batch", 2, 0, 4);
       ("eks-shop-web", 6, 2, 8)].
Proof. split_and!; vm_compute; reflexivity. Qed.

(** *** A failed deletion of the baseline *)

Lemma delete_baseline_failed w cluster_id nodegroup_name e :
  is_client_error e = true →
  fault w (ticks w) (DdbDeleteItem ClusterState (cluster_id, nodegroup_name))
  = Some e →
  ClusterBaseline.delete_baseline cluster_id nodegroup_name w
  = (Ret tt,
     set_logs (logs w ++ [ {| l_level := ERROR;
                              l_msg := "Failed to delete baseline" |} ])
       (set_ticks (S (ticks w)) w)).
Proof.
  intros He Hf. unfold ClusterBaseline.delete_baseline.
  rewrite (try_caught_step _ _ _ w e (set_ticks (S (ticks w)) w));
    [reflexivity | | exact He].
  apply bind_raise_step. by apply request_failed.
Qed.

Lemma delete_baseline_no_client_error w cluster_id nodegroup_name e :
  (ClusterBaseline.delete_baseline cluster_id nodegroup_name w).1 = Raise e →
  is_client_error e = false.
Proof.
  unfold ClusterBaseline.delete_baseline, try_except, mbind, M_bind, request.
  destruct (fault w (ticks w) _) as [e' |]; simpl; [| done].
  destruct (is_client_error e') eqn:He'; simpl; [done |].
  by intros [= <-].
Qed.

(** C10. [delete_baseline] never lets a client error of the delete through:
    it logs the failure at level ERROR and returns, leaving both tables as
    they were. In the start path the deletion comes after the node group row
    was marked COMPLETED, so when only the deletion fails the loop body
    returns normally, the failure is in the log, the row stays COMPLETED and
    the baseline table is unchanged. *)
Theorem delete_baseline_swallows_client_errors :
  (∀ w cluster_id nodegroup_name e,
     (ClusterBaseline.delete_baseline cluster_id nodegroup_name w).1 = Raise e →
     is_client_error e = false)
  ∧ (∀ w cluster_id nodegroup_name e,
       is_client_error e = true →
       fault w (ticks w)
         (DdbDeleteItem ClusterState (cluster_id, nodegroup_name)) = Some e →
       let r := ClusterBaseline.delete_baseline cluster_id nodegroup_name w in
       r.1 = Ret tt
       ∧ logs r.2 = (logs w ++ [ {| l_level := ERROR;
                                    l_msg := "Failed to delete baseline" |} ])%list
       ∧ cluster_state_table r.2 = cluster_state_table w
       ∧ operations_table r.2 = operations_table w)
  ∧ (∀ w message operation_id account_id region cluster_name cluster_id ng
       asg_name e,
       is_client_error e = true →
       (∀ n r, fault w n r = match r with
                             | DdbDeleteItem ClusterState _ => Some e
                             | _ => None
                             end) →
       ng_asg_name ng = Some asg_name → asg_name ≠ "" →
       (∃ g, g ∈ EKSController.groups account_id region w
             ∧ AutoScalingGroupName g = asg_name) →
       is_Some (cluster_state_table w !! (cluster_id, ng_name ng))
       ∨ (is_Some (ng_min_size ng) ∧ is_Some (ng_max_size ng)) →
       let r := process_nodegroup message operation_id "start" account_id
                  region cluster_name cluster_id ng w in
       r.1 = Ret tt
       ∧ {| l_level := ERROR; l_msg := "Failed to delete baseline" |} ∈ logs r.2
       ∧ cluster_state_table r.2 = cluster_state_table w
       ∧ ∃ row,
           operations_table r.2
             !! ("OP#" ++ operation_id, "NG#" ++ cluster_id ++ ":" ++ ng_name ng)
           = Some row
           ∧ row !! "status" = Some (AS "COMPLETED")).
Proof.
  split_and!.
  - apply delete_baseline_no_client_error.
  - intros w cluster_id nodegroup_name e He Hf r. subst r.
    by rewrite (delete_baseline_failed _ _ _ e He Hf).
  - intros w message operation_id account_id region cluster_name cluster_id ng
      asg_name e He Hfault Hasg Hne Hex Hsizes r.
    (* the lookup and the choice of the sizes *)
    assert (∃ sizes w2,
      dispatch message operation_id "start" account_id region cluster_name
        cluster_id ng w
      = (let '(target_size, min_size, max_size) := sizes in
         EKSController.start_nodegroup account_id region cluster_name
           (ng_name ng) target_size min_size max_size (ng_asg_name ng);;
         StateManager.update_nodegroup_status operation_id
           (cluster_id ++ ":" ++ ng_name ng) "COMPLETED" None
           (Some target_size);;
         ClusterBaseline.delete_baseline cluster_id (ng_name ng)) w2
      ∧ fault w2 = fault w
      ∧ autoscaling w2 = autoscaling w
      ∧ cluster_state_table w2 = cluster_state_table w)
      as (sizes & w2 & Hstep & Hf2 & Ha2 & Hb2).
    { unfold dispatch.
      change (String.eqb "start" "stop") with false.
      change (String.eqb "start" "start") with true. cbv iota.
      rewrite (bind_ret_step _ _ _ _ _
                 (ServiceFacts.get_baseline_run w cluster_id (ng_name ng)
                    ltac:(by rewrite Hfault))).
      destruct (cluster_state_table w !! (cluster_id, ng_name ng))
        as [saved |] eqn:Hsaved.
      - exists (b_desired_size saved, b_min_size saved, b_max_size saved),
          (set_ticks (S (ticks w)) w).
        split; [| done].
        by rewrite (bind_ret_step _ _ _
                      (b_desired_size saved, b_min_size saved, b_max_size saved)
                      (set_ticks (S (ticks w)) w) eq_refl).
      - destruct Hsizes as [[? [=]] | [[mn Hmn] [mx Hmx]]].
        rewrite Hmn, Hmx.
        exists (mn, mn, mx),
          (set_logs (logs w ++ [no_baseline_warning cluster_id ng])
             (set_ticks (S (ticks w)) w)).
        split; [| done].
        match goal with
        | |- (?m ≫= _) ?w1 = _ =>
            assert (Hchosen :
              m w1 = (Ret (mn, mn, mx),
                      set_logs (logs w ++ [no_baseline_warning cluster_id ng])
                        (set_ticks (S (ticks w)) w))) by reflexivity
        end.
        by rewrite (bind_ret_step _ _ _ _ _ Hchosen). }
    destruct sizes as [[target_size min_size] max_size].
    (* the resize *)
    destruct (ServiceFacts.start_nodegroup_run w2 account_id region
                cluster_name (ng_name ng) target_size min_size max_size
                asg_name) as (w3 & Hstart & _).
    { intros n. by rewrite Hf2, Hfault. }
    { intros n. by rewrite Hf2, Hfault. }
    { done. }
    { unfold EKSController.groups in *. by rewrite Ha2. }
    assert (Hf3 : fault w3 = fault w2).
    { eapply (along_run (same fault)); [| exact Hstart]. along_calls. }
    assert (Hb3 : cluster_state_table w3 = cluster_state_table w2).
    { eapply (along_run (same cluster_state_table)); [| exact Hstart].
      along_calls. }
    (* the status *)
    destruct (StateManagerFacts.update_nodegroup_status_returns operation_id
                (cluster_id ++ ":" ++ ng_name ng) "COMPLETED" None
                (Some target_size) ltac:(done) w3)
      as ([] & w4 & Hrecord & _).
    { split; intros; by rewrite Hf3, Hf2, Hfault. }
    assert (Hf4 : fault w4 = fault w3).
    { eapply (along_run (same fault)); [| exact Hrecord]. along_calls. }
    assert (Hb4 : cluster_state_table w4 = cluster_state_table w3).
    { eapply (along_run (same cluster_state_table)); [| exact Hrecord].
      along_calls. }
    destruct (StateManagerFacts.update_nodegroup_status_row _ _ _ _ _ _ _ Hrecord)
      as (row & Hrow & Hstatus & _).
    (* the deletion, which fails *)
    assert (Hdispatch :
      dispatch message operation_id "start" account_id region cluster_name
        cluster_id ng w
      = (Ret tt,
         set_logs (logs w4 ++ [ {| l_level := ERROR;
                                   l_msg := "Failed to delete baseline" |} ])
           (set_ticks (S (ticks w4)) w4))).
    { rewrite Hstep, Hasg.
      rewrite (bind_ret_step _ _ _ _ _ Hstart).
      rewrite (bind_ret_step _ _ _ _ _ Hrecord).
      apply (delete_baseline_failed _ _ _ e); [done |].
      by rewrite Hf4, Hf3, Hf2, Hfault. }
    subst r. unfold process_nodegroup.
    rewrite (try_ret_step _ _ _ _ _ _ Hdispatch). simpl.
    split_and!; [done | | congruence |].
    + apply elem_of_app. right. left.
    + exists row. by split.
Qed.

(** On the sample fleet: [workers] was stopped, the start restores its sizes
    from the baseline, the deletion of the baseline is refused, and the
    message is still processed: the row of the node group is COMPLETED, the
    baseline stays, and the failure is in the log. *)
Example refused_deletion_leaves_start_completed :
  let r := _process_message (Sample.message "start" "workers")
             Sample.deletion_refused in
  Sample.sizes Sample.deletion_refused
  = [("eks-dev-workers", 0, 0, 5); ("eks-dev-batch", 2, 0, 4);
     ("eks-shop-web", 6, 2, 8)]
  ∧ r.1 = Ret tt
  ∧ Sample.sizes r.2
    = [("eks-dev-workers", 3, 1, 5); ("eks-dev-batch", 2, 0, 4);
       ("eks-shop-web", 6, 2, 8)]
  ∧ map_to_list (cluster_state_table Sample.deletion_refused)
    = [(("111111111111:us-east-1:dev", "workers"),
        {| b_cluster_id := "111111111111:us-east-1:dev";
           b_nodegroup_name := "workers";
           b_desired_size := 3; b_min_size := 1; b_max_size := 5;
           b_saved_at := 1000; b_version := 1 |})]
  ∧ map_to_list (cluster_state_table r.2)
    = map_to_list (cluster_state_table Sample.deletion_refused)
  ∧ Sample.rows r.2
    = [("CLUSTER#111111111111:us-east-1:dev", "IN_PROGRESS", None);
       ("META", "IN_PROGRESS", None);
       ("NG#111111111111:us-east-1:dev:workers", "COMPLETED", None);
       ("NG#111111111111:us-east-1:dev:batch", "PENDING", None)]
  ∧ existsb (λ l, String.eqb (l_msg l) "Failed to delete baseline") (logs r.2)
    = true
  ∧ existsb (λ l, String.eqb (l_msg l) "Baseline deleted") (logs r.2) = false.
Proof. vm_compute. split_and!; reflexivity. Qed.


(** *** Failures of node groups and failures of records *)

(** One turn of the handler's loop. *)
Lemma process_record_run record acc w :
  process_record record acc w
  = let r := (decode record ≫= _process_message) w in
    if raises r.1
    then (Ret (acc ++ [messageId record])%list,
          set_logs (logs r.2 ++ [ {| l_level := ERROR;
                                     l_msg := "Failed to process record" |} ])
            r.2)
    else (Ret acc, r.2).
Proof.
  unfold process_record, try_except, mbind, M_bind.
  destruct (decode record w) as [[message | e] w1]; simpl; [| done].
  by destruct (_process_message message w1) as [[[] | e] w2].
Qed.

Lemma process_record_world record acc w :
  (process_record record acc w).2 = (process_record record [] w).2.
Proof. rewrite !process_record_run. simpl. by destruct (raises _). Qed.

Lemma process_records_run records acc w :
  (process_records records acc w).1
  = Ret (acc ++ raising_records records w)%list.
Proof.
  revert acc w. induction records as [| record rest IH]; intros acc w; simpl.
  - by rewrite app_nil_r.
  - unfold mbind, M_bind.
    destruct (process_record record acc w) as [[acc' | e] w1] eqn:Hrun.
    + rewrite IH.
      assert (Hw1 : w1 = (process_record record [] w).2)
        by (by rewrite <- (process_record_world record acc w), Hrun).
      rewrite <- Hw1. f_equal.
      rewrite process_record_run in Hrun. simpl in Hrun.
      destruct (raises _); injection Hrun as <- _;
        by rewrite <- ?app_assoc, ?app_nil_r.
    + rewrite process_record_run in Hrun. simpl in Hrun.
      by destruct (raises _).
Qed.

(** C6. When the action on a node group raises [e], the worker logs it and
    writes FAILED with [error_message = str(e)] (for a non-empty [str(e)])
    to the node group's row, and the exception goes no further: the loop
    body returns. The handler appends a record's [messageId] to
    [batchItemFailures] exactly when the decoding or the processing of that
    record raises, so the list it returns holds the ids of those records, in
    order, and of no other. *)
Theorem node_group_failure_recorded_record_failure_reported :
  (∀ w message operation_id action account_id region cluster_name cluster_id
     ng e w1 w',
     dispatch message operation_id action account_id region cluster_name
       cluster_id ng w = (Raise e, w1) →
     record_failure operation_id (cluster_id ++ ":" ++ ng_name ng) e w1
     = (Ret tt, w') →
     process_nodegroup message operation_id action account_id region
       cluster_name cluster_id ng w = (Ret tt, w')
     ∧ ∃ row,
         operations_table w'
           !! ("OP#" ++ operation_id, "NG#" ++ cluster_id ++ ":" ++ ng_name ng)
         = Some row
         ∧ row !! "status" = Some (AS "FAILED")
         ∧ (str e ≠ "" → row !! "error_message" = Some (AS (str e))))
  ∧ (∀ record batch_item_failures w,
       (process_record record batch_item_failures w).1
       = Ret (if raises ((decode record ≫= _process_message) w).1
              then (batch_item_failures ++ [messageId record])%list
              else batch_item_failures))
  ∧ (∀ event w,
       warm event = false →
       (handler event w).1
       = Ret (BatchItemFailures
                (raising_records (Records event)
                   (set_logs (logs w ++ [ {| l_level := INFO;
                                             l_msg := "Received event" |} ])
                      w)))).
Proof.
  split_and!.
  - intros w message operation_id action account_id region cluster_name
      cluster_id ng e w1 w' Hraise Hrecord.
    split.
    + unfold process_nodegroup.
      by rewrite (try_caught_step _ _ _ _ _ _ Hraise eq_refl).
    + unfold record_failure in Hrecord.
      apply bind_ret_inv in Hrecord as ([] & w2 & _ & Hupdate).
      apply StateManagerFacts.update_nodegroup_status_row in Hupdate
        as (row & Hrow & Hstatus & Herr & _).
      exists row. split_and!; [done | done |].
      intros Hstr. apply Herr. simpl.
      by apply negb_true_iff, String.eqb_neq.
  - intros record acc w. rewrite process_record_run. simpl.
    by destruct (raises _).
  - intros event w Hwarm. unfold handler. rewrite Hwarm.
    unfold mbind at 1, M_bind at 1. simpl.
    unfold mbind, M_bind.
    pose proof (process_records_run (Records event) []
                  (set_logs (logs w ++ [ {| l_level := INFO;
                                            l_msg := "Received event" |} ])
                     w)) as Hrun.
    destruct (process_records _ _ _) as [[ids | e] w1]; simpl in *.
    + by injection Hrun as ->.
    + done.
Qed.

(** The claim as worded fails on the sample fleet: the resize of the group
    of [batch] raises, the row of [batch] is FAILED with the error message,
    the row of [workers] is COMPLETED, and no [messageId] is reported, so
    the failing message is not redelivered. *)
Lemma failed_node_group_is_not_reported :
  (handler (Sample.batch "stop") Sample.batch_unreachable).1
  = Ret (BatchItemFailures [])
  ∧ Sample.rows (handler (Sample.batch "stop") Sample.batch_unreachable).2
    = [ ("CLUSTER#111111111111:us-east-1:dev", "PARTIAL_FAILURE", None);
        ("META", "IN_PROGRESS", None);
        ("NG#111111111111:us-east-1:dev:workers", "COMPLETED", None);
        ("NG#111111111111:us-east-1:dev:batch", "FAILED",
         Some (AS "Could not connect to the endpoint URL")) ].
Proof. split; vm_compute; reflexivity. Qed.

(** What is reported: a record whose processing raises. Here the action on
    [batch] fails and so does the write of FAILED to its row; the exception
    of that write leaves [_process_message], and the handler reports the
    record of [batch] and only that one. *)
Example unrecorded_failure_is_reported :
  let r := handler (Sample.batch "stop") Sample.batch_unrecorded in
  r.1 = Ret (BatchItemFailures ["m-2"])
  ∧ Sample.rows r.2
    = [ ("CLUSTER#111111111111:us-east-1:dev", "IN_PROGRESS", None);
        ("META", "IN_PROGRESS", None);
        ("NG#111111111111:us-east-1:dev:workers", "COMPLETED", None);
        ("NG#111111111111:us-east-1:dev:batch", "PENDING", None) ]
  ∧ Sample.sizes r.2
    = [("eks-dev-workers", 0, 0, 5); ("eks-dev-batch", 2, 0, 4);
       ("eks-shop-web", 6, 2, 8)].
Proof. vm_compute. split_and!; reflexivity. Qed.

(** A record that cannot be decoded is reported, and the record after it
    is processed. *)
Example undecodable_record_is_reported :
  let r := handler Sample.garbled (Sample.seeded "stop") in
  r.1 = Ret (BatchItemFailures ["m-0"])
  ∧ Sample.rows r.2
    = [ ("CLUSTER#111111111111:us-east-1:dev", "IN_PROGRESS", None);
        ("META", "IN_PROGRESS", None);
        ("NG#111111111111:us-east-1:dev:workers", "COMPLETED", None);
        ("NG#111111111111:us-east-1:dev:batch", "PENDING", None) ].
Proof. vm_compute. split_and!; reflexivity. Qed.

(** A message that lacks a required field is reported as well: the call
    that should log it raises instead, outside every [try] of
    [_process_message], and no request is made on its behalf. *)
Example message_without_operation_is_reported :
  let r := handler Sample.unaddressed (Sample.seeded "stop") in
  r.1 = Ret (BatchItemFailures ["m-9"])
  ∧ ticks r.2 = ticks (Sample.seeded "stop")
  ∧ Sample.sizes r.2 = Sample.sizes (Sample.seeded "stop")
  ∧ Sample.rows r.2 = Sample.rows (Sample.seeded "stop")
  ∧ existsb (λ l, String.eqb (l_msg l) "Missing required fields in message")
      (logs r.2) = false
  ∧ String.length (str (reserved_extra_key "message")) = 45%nat.
Proof. vm_compute. split_and!; reflexivity. Qed.

End WorkerProps.

(** ** The fan-out router *)

Module RouterProps.
Import Aws MonadFacts OperationRouter.

Lemma publish_run operation_id action initiated_by cluster ng w :
  publish (message_of operation_id action initiated_by cluster ng) action
    (c_account_id cluster) w
  = match fault w (ticks w)
            (SnsPublish (m_nodegroup_id
                           (message_of operation_id action initiated_by
                              cluster ng))) with
    | Some e => (Raise e, set_ticks (S (ticks w)) w)
    | None =>
        (Ret tt,
         set_topic
           (topic w ++ [published_of action
                          (message_of operation_id action initiated_by
                             cluster ng)])
           (set_ticks (S (ticks w)) w))
    end.
Proof. unfold publish, request. by destruct (fault _ _ _). Qed.

Lemma publish_nodegroups_prefix operation_id action initiated_by cluster ngs
  count w :
  let r := publish_nodegroups operation_id action initiated_by cluster ngs
             count w in
  ∃ k, published_prefix w action
         (message_of operation_id action initiated_by cluster <$> ngs) r k
       ∧ ∀ n, r.1 = Ret n → n = count + Z.of_nat (length ngs).
Proof.
  revert count w. induction ngs as [| ng rest IH]; intros count w; simpl.
  - exists 0%nat. split; [| intros n [= <-]; lia].
    split_and!; [by rewrite app_nil_r | done | done].
  - unfold mbind, M_bind.
    rewrite publish_run.
    destruct (fault w (ticks w) _) as [e |] eqn:Hf.
    + exists 0%nat. split; [| done]. simpl.
      split_and!; [by rewrite app_nil_r | done |].
      split; [simpl; lia | eauto].
    + destruct (IH (count + 1)
                  (set_topic
                     (topic w ++ [published_of action
                                    (message_of operation_id action initiated_by
                                       cluster ng)])
                     (set_ticks (S (ticks w)) w)))
        as (k & (Htopic & Hfault & Hout) & Hcount).
      exists (S k). split.
      * split_and!.
        -- rewrite Htopic. simpl. by rewrite <- app_assoc.
        -- by rewrite Hfault.
        -- destruct (publish_nodegroups _ _ _ _ _ _ _).1; simpl in *.
           ++ rewrite length_fmap in *. by rewrite Hout.
           ++ destruct Hout as [Hk Hsome].
              split; [rewrite length_fmap in *; simpl; lia | done].
      * intros n Hn. rewrite (Hcount n Hn). simpl length. lia.
Qed.

Lemma publish_clusters_prefix operation_id action initiated_by clusters
  clusters_count nodegroups_count w :
  let r := publish_clusters operation_id action initiated_by clusters
             clusters_count nodegroups_count w in
  ∃ k, published_prefix w action
         (messages_of operation_id action initiated_by clusters) r k
       ∧ ∀ totals, r.1 = Ret totals →
           totals.1 = clusters_count + Z.of_nat (length clusters)
           ∧ totals.2
             = nodegroups_count
               + Z.of_nat (length (messages_of operation_id action
                                     initiated_by clusters)).
Proof.
  revert clusters_count nodegroups_count w.
  induction clusters as [| cluster rest IH];
    intros clusters_count nodegroups_count w; cbv zeta.
  - exists 0%nat. simpl. split; [| intros totals [= <-]; simpl; lia].
    split_and!; [by rewrite app_nil_r | done | done].
  - destruct (publish_nodegroups_prefix operation_id action initiated_by
                cluster (c_node_groups cluster) nodegroups_count w)
      as (k1 & (Htopic1 & Hfault1 & Hout1) & Hcount1).
    change (messages_of operation_id action initiated_by (cluster :: rest))
      with ((message_of operation_id action initiated_by cluster
               <$> c_node_groups cluster)
            ++ messages_of operation_id action initiated_by rest)%list.
    change (publish_clusters operation_id action initiated_by (cluster :: rest)
              clusters_count nodegroups_count w)
      with (match publish_nodegroups operation_id action initiated_by cluster
                    (c_node_groups cluster) nodegroups_count w with
            | (Ret n, w1) =>
                publish_clusters operation_id action initiated_by rest
                  (clusters_count + 1) n w1
            | (Raise e, w1) => (Raise e, w1)
            end).
    destruct (publish_nodegroups _ _ _ _ _ _ _) as [[n | e] w1]; simpl in *.
    + specialize (Hcount1 n eq_refl). subst n k1.
      destruct (IH (clusters_count + 1)
                  (nodegroups_count
                   + Z.of_nat (length (c_node_groups cluster))) w1)
        as (k2 & (Htopic2 & Hfault2 & Hout2) & Hcount2).
      exists (length (message_of operation_id action initiated_by cluster
                        <$> c_node_groups cluster) + k2)%nat.
      split.
      * split_and!.
        -- rewrite Htopic2, Htopic1, take_app_add, firstn_all.
           by rewrite fmap_app, app_assoc.
        -- by rewrite Hfault2.
        -- destruct (publish_clusters _ _ _ _ _ _ _).1; simpl in *.
           ++ rewrite length_app. lia.
           ++ destruct Hout2 as [Hk (m & id & Hsome)].
              split; [rewrite length_app; lia |].
              exists m, id. by rewrite <- Hfault1.
      * intros totals Htotals. destruct (Hcount2 totals Htotals) as [-> ->].
        rewrite length_app, !length_fmap. lia.
    + exists k1. destruct Hout1 as [Hk Hsome]. split; [| done].
      split_and!.
      * simpl. rewrite Htopic1. by rewrite take_app_le by lia.
      * done.
      * simpl. split; [rewrite length_app; lia | done].
Qed.

(** C7. [fan_out_operation] publishes the messages of the operation, one
    per node group of every cluster, in order. When every publish is
    answered it returns the number of clusters and the number of messages
    published. A publish that fails raises out of the function: the messages
    before it stay published, the failing one and its later siblings are not
    published, and the caller receives no counts. *)
Theorem fan_out_publishes_until_first_failure (w : World)
  (operation_id action : string) (clusters : list Cluster)
  (initiated_by : string) :
  let messages := messages_of operation_id action initiated_by clusters in
  let r := fan_out_operation operation_id action clusters initiated_by w in
  (∃ k,
     topic r.2 = (topic w ++ (published_of action <$> take k messages))%list
     ∧ match r.1 with
       | Ret c =>
           k = length messages
           ∧ clusters_count c = Z.of_nat (length clusters)
           ∧ nodegroups_count c = Z.of_nat (length messages)
       | Raise e =>
           (k < length messages)%nat
           ∧ ∃ n nodegroup_id, fault w n (SnsPublish nodegroup_id) = Some e
       end)
  ∧ ((∀ n nodegroup_id, fault w n (SnsPublish nodegroup_id) = None) →
     r.1 = Ret {| clusters_count := Z.of_nat (length clusters);
                  nodegroups_count := Z.of_nat (length messages) |}
     ∧ topic r.2 = (topic w ++ (published_of action <$> messages))%list).
Proof.
  intros messages r.
  destruct (publish_clusters_prefix operation_id action initiated_by clusters
              0 0 w) as (k & (Htopic & Hfault & Hout) & Hcount).
  assert (Hrun : r = match publish_clusters operation_id action initiated_by
                             clusters 0 0 w with
                     | (Ret totals, w1) =>
                         (Ret {| clusters_count := totals.1;
                                 nodegroups_count := totals.2 |},
                          set_logs (logs w1 ++ [ {| l_level := INFO;
                                                    l_msg := "Fan-out complete" |} ])
                            w1)
                     | (Raise e, w1) => (Raise e, w1)
                     end).
  { subst r. unfold fan_out_operation, mbind, M_bind.
    by destruct (publish_clusters _ _ _ _ _ _ _) as [[totals | e] w1]. }
  destruct (publish_clusters _ _ _ _ _ _ _) as [[totals | e] w1];
    simpl in *; rewrite Hrun; simpl.
  - destruct (Hcount totals eq_refl) as [Hc Hn]. split.
    + exists k. subst messages. split_and!; simpl; [done | done | lia | lia].
    + intros _. subst k messages. rewrite firstn_all in Htopic.
      split; [| done]. destruct totals as [c n]. simpl in *.
      f_equal. f_equal; lia.
  - destruct Hout as [Hk (n & id & Hsome)]. split.
    + exists k. split_and!; [done | done | eauto].
    + intros Hnone. by rewrite Hnone in Hsome.
Qed.

(** The claim as worded fails on the sample fleet: the topic refuses the
    first of the two messages of [dev]; the call raises, the caller gets no
    counts, and the sibling message for [batch] is not published. *)
Lemma fan_out_aborts_on_publish_failure :
  length (messages_of "op-1" "stop" "operator" Sample.dev_cluster) = 2%nat
  ∧ (fan_out_operation "op-1" "stop" Sample.dev_cluster "operator"
       Sample.topic_refuses_workers).1
    = Raise (ClientError "InternalError" "Publish" "Internal failure")
  ∧ topic (fan_out_operation "op-1" "stop" Sample.dev_cluster "operator"
             Sample.topic_refuses_workers).2 = [].
Proof. split_and!; vm_compute; reflexivity. Qed.

End RouterProps.

(** ** Cron triggers *)

Module CronProps.
Import Aws CronUtils.

(** The outcome of [is_triggered] on a valid expression and a known zone is
    the outcome of the comparison of [get_prev] with the reference. *)
Lemma is_triggered_run `{Calendar} cron_expression tz_name zone t w :
  validate_cron cron_expression = true →
  ZoneInfo tz_name = Ret zone →
  is_triggered cron_expression tz_name (Some t) w
  = (match croniter_get_prev cron_expression
             (add_seconds (astimezone zone (start_of_minute t)) 1) with
     | Ret prev =>
         Ret (datetime_eqb prev (astimezone zone (start_of_minute t)))
     | Raise e => Raise e
     end, w).
Proof.
  intros Hvalid Hzone. unfold is_triggered, lift. rewrite Hvalid. simpl.
  unfold mbind, M_bind, mret, M_ret. rewrite Hzone.
  by destruct (croniter_get_prev _ _).
Qed.

(** The comparison the check makes, for a valid expression and a known
    zone, in terms of the helpers of the module. *)
Lemma is_triggered_compares_previous `{Calendar} (cron_expression tz_name : string)
  (zone : tzinfo) (t : datetime) (w : World) (b : bool) :
  validate_cron cron_expression = true →
  ZoneInfo tz_name = Ret zone →
  let local_ref := astimezone zone (start_of_minute t) in
  (is_triggered cron_expression tz_name (Some t) w).1 = Ret b
  ↔ ∃ prev_trigger,
      croniter_get_prev cron_expression (add_seconds local_ref 1)
      = Ret prev_trigger
      ∧ datetime_eqb prev_trigger local_ref = b.
Proof.
  intros Hvalid Hzone local_ref.
  rewrite (is_triggered_run _ _ _ _ _ Hvalid Hzone). simpl. fold local_ref.
  destruct (croniter_get_prev _ _) as [prev | e].
  - split.
    + intros [= <-]. by exists prev.
    + by intros (prev' & [= <-] & <-).
  - split; [done | by intros (prev' & [=] & _)].
Qed.

(** The two small calendars do what [croniter] promises. *)
Lemma every_minute_spec :
  @croniter_spec every_minute (λ _ q, q `mod` MINUTE = 0).
Proof.
  split; [done |]. intros e start p. simpl. split.
  - intros [= <-]. simpl. split_and!.
    + done.
    + rewrite Z.mul_comm. apply Z.mod_mul. done.
    + pose proof (Z.mul_div_le (wall start - 1) MINUTE ltac:(done)). lia.
    + intros q Hq Hlt.
      apply Z.mod_divide in Hq as [a ->]; [| done].
      rewrite (Z.mul_comm MINUTE).
      apply Z.mul_le_mono_nonneg_r; [done |].
      apply Z.div_le_lower_bound; [done |]. unfold MINUTE, SECOND in *. lia.
  - intros (Htz & Hp & Hlt & Hmax). destruct p as [pw ptz]. simpl in *.
    subst ptz. f_equal.
    apply Z.mod_divide in Hp as [a ->]; [| done].
    assert (Hle : MINUTE * ((wall start - 1) `div` MINUTE) ≤ a * MINUTE).
    { apply Hmax.
      - rewrite Z.mul_comm. by apply Z.mod_mul.
      - pose proof (Z.mul_div_le (wall start - 1) MINUTE ltac:(done)).
        unfold MINUTE, SECOND in *. lia. }
    assert (Hge : a ≤ (wall start - 1) `div` MINUTE).
    { apply Z.div_le_lower_bound; [done |]. clear Hle Hmax.
      unfold MINUTE, SECOND in *. lia. }
    assert (Hmul : MINUTE * a ≤ MINUTE * ((wall start - 1) `div` MINUTE))
      by (by apply Z.mul_le_mono_nonneg_l).
    clear Hmax Hge Hlt.
    generalize dependent ((wall start - 1) `div` MINUTE). intros d Hle Hmul.
    unfold MINUTE, SECOND in *. f_equal. lia.
Qed.

Lemma hourly_spec :
  @croniter_spec hourly (λ _ q, q `mod` HOUR = 0).
Proof.
  split.
  - intros e q Hq. apply Z.mod_divide in Hq as [a ->]; [| done].
    unfold HOUR. rewrite Z.mul_assoc. by apply Z.mod_mul.
  - intros e start p. simpl. split.
    + intros [= <-]. simpl. split_and!.
      * done.
      * rewrite Z.mul_comm. apply Z.mod_mul. done.
      * pose proof (Z.mul_div_le (wall start - 1) HOUR ltac:(done)). lia.
      * intros q Hq Hlt.
        apply Z.mod_divide in Hq as [a ->]; [| done].
        rewrite (Z.mul_comm HOUR).
        apply Z.mul_le_mono_nonneg_r; [done |].
        apply Z.div_le_lower_bound; [done |].
        unfold HOUR, MINUTE, SECOND in *. lia.
    + intros (Htz & Hp & Hlt & Hmax). destruct p as [pw ptz]. simpl in *.
      subst ptz. f_equal.
      apply Z.mod_divide in Hp as [a ->]; [| done].
      assert (Hle : HOUR * ((wall start - 1) `div` HOUR) ≤ a * HOUR).
      { apply Hmax.
        - rewrite Z.mul_comm. by apply Z.mod_mul.
        - pose proof (Z.mul_div_le (wall start - 1) HOUR ltac:(done)).
          unfold HOUR, MINUTE, SECOND in *. lia. }
      assert (Hge : a ≤ (wall start - 1) `div` HOUR).
      { apply Z.div_le_lower_bound; [done |]. clear Hle Hmax.
        unfold HOUR, MINUTE, SECOND in *. lia. }
      assert (Hmul : HOUR * a ≤ HOUR * ((wall start - 1) `div` HOUR))
        by (by apply Z.mul_le_mono_nonneg_l).
      clear Hmax Hge Hlt.
      generalize dependent ((wall start - 1) `div` HOUR). intros d Hle Hmul.
      unfold HOUR, MINUTE, SECOND in *. f_equal. lia.
Qed.

(** C8. Let [croniter] do what it promises for the schedule [fires], take a
    valid expression, a known zone and a check time [t], and let [local_ref]
    be the start of [t]'s minute on the wall clock of the zone (a whole
    minute there). Then [is_triggered] returns true exactly when the
    schedule fires at [local_ref], that is, exactly when the previous
    scheduled time counted from [local_ref] plus one second is [local_ref]
    itself; and when it returns false the schedule does not fire at
    [local_ref], however close its next time is. *)
Theorem is_triggered_exact_minute `{Calendar} (fires : string → Z → Prop)
  (cron_expression tz_name : string) (zone : tzinfo) (t : datetime)
  (w : World) :
  croniter_spec fires →
  validate_cron cron_expression = true →
  ZoneInfo tz_name = Ret zone →
  let minute_start := wall t - wall t `mod` MINUTE in
  let local_ref := fromutc zone (minute_start - utcoffset (tz t) minute_start) in
  local_ref `mod` MINUTE = 0 →
  ((is_triggered cron_expression tz_name (Some t) w).1 = Ret true
   ↔ fires cron_expression local_ref)
  ∧ ((is_triggered cron_expression tz_name (Some t) w).1 = Ret true
     ↔ croniter_get_prev cron_expression
         {| wall := local_ref + SECOND; tz := zone |}
       = Ret {| wall := local_ref; tz := zone |})
  ∧ ((is_triggered cron_expression tz_name (Some t) w).1 = Ret false →
     ¬ fires cron_expression local_ref
     ∧ ∃ earlier, fires cron_expression earlier ∧ earlier < local_ref).
Proof.
  intros [Haligned Hprev] Hvalid Hzone minute_start local_ref Href.
  rewrite (is_triggered_run _ _ _ _ _ Hvalid Hzone).
  change (astimezone zone (start_of_minute t))
    with {| wall := local_ref; tz := zone |}.
  change (add_seconds {| wall := local_ref; tz := zone |} 1)
    with {| wall := local_ref + SECOND; tz := zone |}.
  set (reference := {| wall := local_ref; tz := zone |}).
  set (start := {| wall := local_ref + SECOND; tz := zone |}).
  change ((?o, w).1) with o.
  (* a match strictly before [start] is at most [local_ref] *)
  assert (Hbelow : ∀ q, fires cron_expression q → q < local_ref + SECOND →
                        q ≤ local_ref).
  { intros q Hq Hlt. specialize (Haligned _ _ Hq).
    apply Z.mod_divide in Haligned as [a Ha]; [| done].
    apply Z.mod_divide in Href as [c Hc]; [| done].
    unfold MINUTE, SECOND in *. lia. }
  (* what [get_prev] returns when the schedule fires at [local_ref] *)
  assert (Hfires : fires cron_expression local_ref →
                   croniter_get_prev cron_expression start = Ret reference).
  { intros Hf. apply Hprev. simpl.
    split_and!; [done | done | unfold SECOND; lia | done]. }
  (* what a previous time says about the schedule *)
  assert (Hgot : ∀ p, croniter_get_prev cron_expression start = Ret p →
                      tz p = zone ∧ fires cron_expression (wall p)
                      ∧ wall p ≤ local_ref
                      ∧ (fires cron_expression local_ref → wall p = local_ref)).
  { intros p Hp. apply Hprev in Hp as (Htz & Hf & Hlt & Hmax). simpl in *.
    split_and!; [done | done | by apply Hbelow |].
    intros Href'. specialize (Hmax _ Href' ltac:(unfold SECOND; lia)).
    specialize (Hbelow _ Hf Hlt). lia. }
  assert (Heqb : ∀ p, tz p = zone →
                      datetime_eqb p reference = bool_decide (wall p = local_ref)).
  { intros p Htz. unfold datetime_eqb. by rewrite decide_True. }
  split_and!.
  - split.
    + destruct (croniter_get_prev _ _) as [p | e] eqn:Hget; [| done].
      intros [= Heq]. destruct (Hgot p eq_refl) as (Htz & Hf & _).
      rewrite (Heqb p Htz) in Heq. apply bool_decide_eq_true_1 in Heq.
      by rewrite <- Heq.
    + intros Hf. rewrite (Hfires Hf). f_equal.
      rewrite Heqb by done. by apply bool_decide_eq_true_2.
  - split.
    + destruct (croniter_get_prev _ _) as [p | e] eqn:Hget; [| done].
      intros [= Heq]. destruct (Hgot p eq_refl) as (Htz & _).
      rewrite (Heqb p Htz) in Heq. apply bool_decide_eq_true_1 in Heq.
      f_equal. destruct p as [pw ptz]. simpl in *. by subst.
    + intros ->. f_equal. rewrite Heqb by done. by apply bool_decide_eq_true_2.
  - destruct (croniter_get_prev _ _) as [p | e] eqn:Hget; [| done].
    intros [= Heq]. destruct (Hgot p eq_refl) as (Htz & Hf & Hle & Hsame).
    rewrite (Heqb p Htz) in Heq. apply bool_decide_eq_false_1 in Heq.
    split.
    + intros Href'. by apply Heq, Hsame.
    + exists (wall p). split; [done | lia].
Qed.

(** At 12:30:15 UTC it is 18:00:15 in a zone five and a half hours ahead:
    an hourly schedule of that zone fires in this minute. *)
Lemma is_triggered_exact_minute_witness :
  (@is_triggered hourly "0 * * * *" "Asia/Kolkata"
     (Some {| wall := 45015 * SECOND; tz := UTC |}) Sample.quiet).1
  = Ret true.
Proof.
  apply (@is_triggered_exact_minute hourly (λ _ q, q `mod` HOUR = 0)
           "0 * * * *" "Asia/Kolkata" (Zone "Asia/Kolkata")
           {| wall := 45015 * SECOND; tz := UTC |} Sample.quiet);
    [exact hourly_spec | reflexivity | reflexivity | reflexivity |].
  reflexivity.
Defined.

(** The check is exact to the minute. The same schedule read in UTC does
    not fire at 12:30; and at 12:59:30 UTC the next time is thirty seconds
    away, and the check is false all the same. *)
Example is_triggered_other_minutes :
  (@is_triggered hourly "0 * * * *" "UTC"
     (Some {| wall := 45015 * SECOND; tz := UTC |}) Sample.quiet).1
  = Ret false
  ∧ (@is_triggered hourly "0 * * * *" "UTC"
       (Some {| wall := 46770 * SECOND; tz := UTC |}) Sample.quiet).1
    = Ret false
  ∧ (@is_triggered hourly "0 * * * *" "UTC"
       (Some {| wall := 46815 * SECOND; tz := UTC |}) Sample.quiet).1
    = Ret true
  ∧ (@is_triggered every_minute "* * * * *" "UTC"
       (Some {| wall := 1735732830 * SECOND; tz := UTC |}) Sample.quiet).1
    = Ret true.
Proof. vm_compute. split_and!; reflexivity. Qed.

(** An expression that is not valid is never triggered, and an unknown
    zone makes the check raise. *)
Example is_triggered_invalid_inputs :
  (@is_triggered hourly "every hour" "Mars/Olympus"
     (Some {| wall := 45015 * SECOND; tz := UTC |}) Sample.quiet).1
  = Ret false
  ∧ (@is_triggered hourly "0 * * * *" "Mars/Olympus"
       (Some {| wall := 45015 * SECOND; tz := UTC |}) Sample.quiet).1
    = Raise (OtherError "ZoneInfoNotFoundError"
               "No time zone found with key Mars/Olympus").
Proof. vm_compute. split; reflexivity. Qed.

End CronProps.

(** * Further properties of the code around the claims *)

Module DiscoveryFacts.
Import Aws MonadFacts Discovery Reading.

Section Frames.
Context (R : relation World) `{!PreOrder R, !Inert R}.









End Frames.




(** *** Where a returned cluster comes from *)














(** *** When discovery raises *)




End DiscoveryFacts.

Module ControllerFacts.
Import Aws MonadFacts EKSController.

(** *** The retry wrapper *)







(** *** Runs in which the requests are answered *)








(** *** Runs in which a request keeps failing *)







End ControllerFacts.

Module StateFacts.
Import Aws MonadFacts StateManager.



End StateFacts.

Module WorkerFacts.
Import Aws MonadFacts TaskWorker.

(** *** The steps of the loop body when every request is answered *)





(** *** Stop, then start *)








(** *** Messages for clusters that discovery does not return *)



End WorkerFacts.

